(** * Beam-Analyzer: the statics engine of [BeamAnalyzer.jsx] and the
      validation boundary of [beam_analysis_engine.js]

    The two JavaScript programs are embedded shallowly.

    - JavaScript numbers are modelled by [number]: the rationals extended with
      [+Infinity], [-Infinity] and [NaN].  Arithmetic on finite values is
      exact (binary64 rounding is abstracted away, and zero carries no sign);
      the special values follow IEEE 754, so division by zero, which the
      source can perform, is visible in the model.
    - JavaScript values that the source mixes (numbers, the strings returned
      by [toFixed], [undefined]) are modelled by [value], with the coercions
      of [+], [*], [/], [||] and of a method call written out.
    - React state setters and DOM effects are modelled by explicit state
      passing; an exception is a [Throw] completion. *)

From Stdlib Require Import QArith Qabs Qround ZArith List String Ascii Bool Lia Lqa.
From Stdlib Require Import DecimalString.
From Stdlib Require Import Permutation.
Import ListNotations.

Local Open Scope Q_scope.

(* ================================================================== *)
(** ** JavaScript numbers *)
(* ================================================================== *)

Module JSNumber.

Inductive number : Type :=
| Fin (q : Q)
| PosInf
| NegInf
| NaN.

Definition of_Z (z : Z) : number := Fin (inject_Z z).
Definition of_nat (n : nat) : number := of_Z (Z.of_nat n).

Definition isNaN (a : number) : bool :=
  match a with NaN => true | _ => false end.

Definition isFinite (a : number) : bool :=
  match a with Fin _ => true | _ => false end.

Definition neg (a : number) : number :=
  match a with
  | Fin q => Fin (- q)
  | PosInf => NegInf
  | NegInf => PosInf
  | NaN => NaN
  end.

Definition add (a b : number) : number :=
  match a, b with
  | NaN, _ | _, NaN => NaN
  | Fin x, Fin y => Fin (x + y)
  | PosInf, NegInf | NegInf, PosInf => NaN
  | PosInf, _ | _, PosInf => PosInf
  | NegInf, _ | _, NegInf => NegInf
  end.

Definition sub (a b : number) : number := add a (neg b).

(** An infinity of the sign of [c] times the sign of [s]; [NaN] when [c] is
    [Eq] (zero times infinity, zero over zero). *)
Definition signed_inf (c : comparison) (positive : bool) : number :=
  match c with
  | Eq => NaN
  | Gt => if positive then PosInf else NegInf
  | Lt => if positive then NegInf else PosInf
  end.

Definition mul (a b : number) : number :=
  match a, b with
  | NaN, _ | _, NaN => NaN
  | Fin x, Fin y => Fin (x * y)
  | Fin x, PosInf | PosInf, Fin x => signed_inf (x ?= 0) true
  | Fin x, NegInf | NegInf, Fin x => signed_inf (x ?= 0) false
  | PosInf, PosInf | NegInf, NegInf => PosInf
  | PosInf, NegInf | NegInf, PosInf => NegInf
  end.

Definition div (a b : number) : number :=
  match a, b with
  | NaN, _ | _, NaN => NaN
  | Fin x, Fin y =>
      if Qeq_bool y 0 then signed_inf (x ?= 0) true else Fin (x / y)
  | Fin _, (PosInf | NegInf) => Fin 0
  | PosInf, Fin y => if Qle_bool 0 y then PosInf else NegInf
  | NegInf, Fin y => if Qle_bool 0 y then NegInf else PosInf
  | (PosInf | NegInf), (PosInf | NegInf) => NaN
  end.

Definition abs (a : number) : number :=
  match a with
  | Fin q => Fin (Qabs q)
  | PosInf | NegInf => PosInf
  | NaN => NaN
  end.

(** Order of two numbers; [None] when one of them is [NaN]. *)
Definition compare (a b : number) : option comparison :=
  match a, b with
  | NaN, _ | _, NaN => None
  | Fin x, Fin y => Some (x ?= y)
  | PosInf, PosInf | NegInf, NegInf => Some Eq
  | PosInf, _ | _, NegInf => Some Gt
  | NegInf, _ | _, PosInf => Some Lt
  end.

(** [a >= b], [a > b], [a < b], [a <= b]: all false on [NaN]. *)
Definition geb (a b : number) : bool :=
  match compare a b with Some Gt | Some Eq => true | _ => false end.
Definition gtb (a b : number) : bool :=
  match compare a b with Some Gt => true | _ => false end.
Definition ltb (a b : number) : bool :=
  match compare a b with Some Lt => true | _ => false end.
Definition leb (a b : number) : bool :=
  match compare a b with Some Lt | Some Eq => true | _ => false end.

(** The same numeric value (so [same NaN NaN] holds: this is identity of
    values, as for property keys, and not the operator [===]). *)
Definition same (a b : number) : Prop :=
  match a, b with
  | Fin x, Fin y => x == y
  | PosInf, PosInf | NegInf, NegInf | NaN, NaN => True
  | _, _ => False
  end.

Definition sameb (a b : number) : bool :=
  match a, b with
  | Fin x, Fin y => Qeq_bool x y
  | PosInf, PosInf | NegInf, NegInf | NaN, NaN => true
  | _, _ => false
  end.

(** [Math.max(...l)]: [-Infinity] on no argument, [NaN] as soon as one
    argument is [NaN]. *)
Definition max2 (a b : number) : number :=
  match compare a b with
  | None => NaN
  | Some Lt => b
  | Some _ => a
  end.

Definition Math_max (l : list number) : number := fold_left max2 l NegInf.

End JSNumber.
Import JSNumber.

Declare Scope js_scope.
Delimit Scope js_scope with js.
Notation "a + b" := (add a b) : js_scope.
Notation "a - b" := (sub a b) : js_scope.
Notation "a * b" := (mul a b) : js_scope.
Notation "a / b" := (div a b) : js_scope.
Notation "a >=? b" := (geb a b) (at level 70) : js_scope.
Notation "a >? b" := (gtb a b) (at level 70) : js_scope.
Notation "a <? b" := (ltb a b) (at level 70) : js_scope.
Notation "a ≈ b" := (same a b) (at level 70) : js_scope.

(* ================================================================== *)
(** ** Strings produced by [Number.prototype.toFixed] *)
(* ================================================================== *)

Module JSString.

Local Open Scope string_scope.

(** [n] copies of the character "0". *)
Fixpoint zeros (n : nat) : string :=
  match n with
  | O => ""
  | S k => String "0" (zeros k)
  end.

(** The decimal digits of a natural number, "0" for zero. *)
Definition digits (n : N) : string := NilZero.string_of_uint (N.to_uint n).

(** The integer [n] for which [n / 10^f - x] is closest to zero, the larger
    one of two (ECMAScript, Number.prototype.toFixed, step 9.a), for [x >= 0]. *)
Definition nearest (f : nat) (x : Q) : N :=
  Z.to_N (Qfloor (x * inject_Z (10 ^ Z.of_nat f) + (1 # 2))).

(** Steps 9.b to 9.d: the digits of [n] with a decimal point before the last
    [f] of them, zero-padded on the left to at least [f + 1] digits. *)
Definition place_point (f : nat) (m : string) : string :=
  match f with
  | O => m
  | S _ =>
      let k := String.length m in
      let m := if Nat.leb k f then zeros (f + 1 - k) ++ m else m in
      let k := String.length m in
      substring 0 (k - f) m ++ "." ++ substring (k - f) f m
  end.

Definition is_empty (s : string) : bool :=
  match s with EmptyString => true | String _ _ => false end.

End JSString.
Import JSString.

(* ================================================================== *)
(** ** The JavaScript runtime and dynamically typed values *)
(* ================================================================== *)

(** Built-ins whose result depends on binary64 digits or on a transcendental
    function are parameters of the development: every theorem below holds for
    each implementation of them.  [Number_toString] is Number::toString,
    [StringToNumber] the conversion applied by [*] and [/] to a string
    operand, [parseFloat], [Math_sin] and [Math_PI] the globals of the same
    names. *)
Class Runtime : Type := {
  Number_toString : number -> string;
  StringToNumber : string -> number;
  parseFloat : string -> number;
  Math_sin : number -> number;
  Math_PI : number
}.

Inductive error : Type :=
| TypeError (message : string).

(** How the evaluation of a block ends. *)
Inductive completion (A : Type) : Type :=
| Normal (a : A)
| Throw (e : error).
Arguments Normal {A} a.
Arguments Throw {A} e.

Definition bind {A B : Type} (c : completion A) (k : A -> completion B)
  : completion B :=
  match c with
  | Normal a => k a
  | Throw e => Throw e
  end.

Notation "'let*' x ':=' c 'in' k" := (bind c (fun x => k))
  (at level 61, x pattern, c at next level, right associativity).

Module JSValue.
Section WithRuntime.
Context {RT : Runtime}.

Local Open Scope string_scope.

Inductive value : Type :=
| VNum (n : number)
| VStr (s : string)
| VUndefined.

(** [Number.prototype.toFixed(f)] of a number [x] (ECMAScript 21.1.3.3). *)
Definition toFixed (x : number) (f : nat) : string :=
  match x with
  | NaN => "NaN"
  | PosInf => "Infinity"
  | NegInf => "-Infinity"
  | Fin q =>
      let s := if Qle_bool 0 q then "" else "-" in
      let x := Qabs q in
      if Qle_bool (inject_Z (10 ^ 21)) x
      then s ++ Number_toString (Fin x)
      else s ++ place_point f (digits (nearest f x))
  end.

Definition ToBoolean (v : value) : bool :=
  match v with
  | VNum (Fin q) => negb (Qeq_bool q 0)
  | VNum NaN => false
  | VNum _ => true
  | VStr s => negb (is_empty s)
  | VUndefined => false
  end.

Definition ToNumber (v : value) : number :=
  match v with
  | VNum n => n
  | VStr s => StringToNumber s
  | VUndefined => NaN
  end.

Definition ToString (v : value) : string :=
  match v with
  | VNum n => Number_toString n
  | VStr s => s
  | VUndefined => "undefined"
  end.

(** [a || b] *)
Definition js_or (a b : value) : value := if ToBoolean a then a else b.

(** [a + b]: concatenation as soon as one operand is a string. *)
Definition js_plus (a b : value) : value :=
  match a, b with
  | VStr _, _ | _, VStr _ => VStr (ToString a ++ ToString b)
  | _, _ => VNum (ToNumber a + ToNumber b)%js
  end.

(** [a * b] and [a / b]: always numeric. *)
Definition js_times (a b : value) : value := VNum (ToNumber a * ToNumber b)%js.
Definition js_divide (a b : value) : value := VNum (ToNumber a / ToNumber b)%js.

(** The call [v.toFixed(f)].  Only a number has the method: on a string the
    property is [undefined] and the call throws, on [undefined] the property
    access itself throws. *)
Definition call_toFixed (v : value) (f : nat) : completion string :=
  match v with
  | VNum n => Normal (toFixed n f)
  | VStr _ => Throw (TypeError "toFixed is not a function")
  | VUndefined => Throw (TypeError "Cannot read properties of undefined")
  end.

End WithRuntime.
End JSValue.
Import JSValue.

(* ================================================================== *)
(** ** [BeamAnalyzer.jsx]: the analysis of the React component *)
(* ================================================================== *)

Module BeamAnalyzer.

Inductive SupportType : Type := pin | roller | fixed.

(** The elements of the [supports] and [loads] state arrays.  Their [id]
    field, which the analysis never reads, is left out.  A load whose [type]
    is not ['concentrated'] is the distributed load of the request format
    ([startPos], [endPos], [startIntensity], [endIntensity]). *)
Record Support : Type := {
  position : number;
  type : SupportType
}.

Inductive Load : Type :=
| concentrated (position magnitude : number)
| distributed (startPos endPos startIntensity endIntensity : number).

(** An element of [data]: every field is the string returned by [toFixed]. *)
Record Sample : Type := {
  x : string;
  shear : string;
  moment : string;
  deflection : string
}.

(** An object whose keys are numbers (the [reactions] object): its entries in
    insertion order.  Two keys are the same property when they are the same
    number. *)
Definition object : Type := list (number * number).

Definition obj_has (k : number) (o : object) : bool :=
  existsb (fun kv => sameb k (fst kv)) o.

Definition obj_set (k v : number) (o : object) : object :=
  if obj_has k o
  then map (fun kv => if sameb k (fst kv) then (fst kv, v) else kv) o
  else o ++ [(k, v)].

Definition obj_get (k : number) (o : object) : option number :=
  option_map snd (find (fun kv => sameb k (fst kv)) o).

(** The state of the component that the analysis writes. *)
Record State : Type := {
  reactions : object;
  analysisData : list Sample;
  maxDeflection : number
}.

Definition initialState : State :=
  {| reactions := []; analysisData := []; maxDeflection := Fin 0 |}.

Definition setReactions (o : object) (st : State) : State :=
  {| reactions := o; analysisData := analysisData st;
     maxDeflection := maxDeflection st |}.
Definition setAnalysisData (d : list Sample) (st : State) : State :=
  {| reactions := reactions st; analysisData := d;
     maxDeflection := maxDeflection st |}.
Definition setMaxDeflection (m : number) (st : State) : State :=
  {| reactions := reactions st; analysisData := analysisData st;
     maxDeflection := m |}.

Definition numPoints : nat := 100.

Local Open Scope js_scope.

(** Line 256: [dx]. *)
Definition sampleSpacing (beamLength : number) : number :=
  beamLength / (of_nat numPoints - Fin 1).

(** Lines 268-273: the callback of [loads.forEach], on the pair
    [(totalLoad, momentAboutSupport1)]. *)
Definition accumulateLoad (support1 : Support) (acc : number * number)
    (load : Load) : number * number :=
  let '(totalLoad, momentAboutSupport1) := acc in
  match load with
  | concentrated p m =>
      (totalLoad + m, momentAboutSupport1 + m * (p - position support1))
  | distributed _ _ _ _ => (totalLoad, momentAboutSupport1)
  end.

(** Lines 265-273: [totalLoad] and [momentAboutSupport1] after the
    [loads.forEach]. *)
Definition sumLoads (support1 : Support) (loads : list Load) : number * number :=
  fold_left (accumulateLoad support1) loads (Fin 0, Fin 0).

(** Lines 261-276: the reactions [(R1, R2)]. *)
Definition solveReactions (support1 support2 : Support) (loads : list Load)
  : number * number :=
  let L := position support2 - position support1 in
  let '(totalLoad, momentAboutSupport1) := sumLoads support1 loads in
  let R2 := momentAboutSupport1 / L in
  let R1 := totalLoad - R2 in
  (R1, R2).

(** Lines 278-281: the object literal with two computed keys. *)
Definition reactionsObject (support1 support2 : Support) (R1 R2 : number)
  : object :=
  obj_set (position support2) R2 (obj_set (position support1) R1 []).

(** Lines 295-299: the callback of [loads.forEach] in the sweep. *)
Definition subtractLoad (x shear : number) (load : Load) : number :=
  match load with
  | concentrated p m => if x >=? p then shear - m else shear
  | distributed _ _ _ _ => shear
  end.

(** Lines 286-304: [shear] at the position [x]. *)
Definition sampleShear (support1 support2 : Support) (R1 R2 : number)
    (loads : list Load) (x : number) : number :=
  let shear := Fin 0 in
  let shear := if x >=? position support1 then shear + R1 else shear in
  let shear := fold_left (subtractLoad x) loads shear in
  let shear := if x >=? position support2 then shear + R2 else shear in
  shear.

Section WithRuntime.
Context {RT : Runtime}.

(** [data[j]?.field]: [undefined] when [data] has no element [j]. *)
Definition optional_field (field : Sample -> string) (data : list Sample)
    (j : nat) : value :=
  match nth_error data j with
  | Some d => VStr (field d)
  | None => VUndefined
  end.

(** Lines 287 and 306-310: [moment] of sample [i], read back from the
    previous element of [data]. *)
Definition sampleMoment (data : list Sample) (i : nat) (shear dx : number)
  : value :=
  if (0 <? i)%nat then
    let prevShear := js_or (optional_field BeamAnalyzer.shear data (i - 1))
                           (VNum (Fin 0)) in
    js_plus
      (js_or (optional_field BeamAnalyzer.moment data (i - 1)) (VNum (Fin 0)))
      (js_divide (js_times (js_plus prevShear (VNum shear)) (VNum dx))
                 (VNum (Fin 2)))
  else VNum (Fin 0).

(** Line 316: the number whose [toFixed(4)] is the [deflection] field. *)
Definition sampleDeflection (beamLength x : number) (moment : value) : number :=
  Math_sin (Math_PI * x / beamLength) * abs (ToNumber moment) / Fin 1000.

(** Lines 285-317: one turn of the sampling loop; the properties of the
    object literal are evaluated in the order they are written. *)
Definition sampleStep (beamLength : number) (support1 support2 : Support)
    (R1 R2 : number) (loads : list Load) (dx : number)
    (data : list Sample) (i : nat) : completion (list Sample) :=
  let x := of_nat i * dx in
  let shear := sampleShear support1 support2 R1 R2 loads x in
  let moment := sampleMoment data i shear dx in
  let x_field := toFixed x 2 in
  let shear_field := toFixed shear 2 in
  let* moment_field := call_toFixed moment 2 in
  let deflection_field := toFixed (sampleDeflection beamLength x moment) 4 in
  Normal (data ++ [ {| x := x_field; shear := shear_field;
                       moment := moment_field;
                       deflection := deflection_field |} ]).

(** Line 284: [for (let i = ...; i < numPoints; i++)], with [n] turns left. *)
Fixpoint sampleLoop (beamLength : number) (support1 support2 : Support)
    (R1 R2 : number) (loads : list Load) (dx : number)
    (n i : nat) (data : list Sample) : completion (list Sample) :=
  match n with
  | O => Normal data
  | S n' =>
      let* data' :=
        sampleStep beamLength support1 support2 R1 R2 loads dx data i in
      sampleLoop beamLength support1 support2 R1 R2 loads dx n' (S i) data'
  end.

(** Lines 321-324. *)
Definition publish (st : State) (data : list Sample)
  : State * completion (list Sample) :=
  let st := setAnalysisData data st in
  let st :=
    setMaxDeflection
      (Math_max (map (fun d => abs (parseFloat (deflection d))) data)) st in
  (st, Normal data).

(** Lines 254-325: the body of the [useMemo] callback.  The pattern
    [support1 :: support2 :: _] is the test [supports.length >= 2] together
    with the reads of [supports[0]] and [supports[1]].  The state is the one
    after the setters that were called; an exception leaves the callback
    before [setAnalysisData]. *)
Definition analyzeBeam (st : State) (beamLength : number)
    (supports : list Support) (loads : list Load)
  : State * completion (list Sample) :=
  let dx := sampleSpacing beamLength in
  match supports with
  | support1 :: support2 :: _ =>
      let '(R1, R2) := solveReactions support1 support2 loads in
      let st := setReactions (reactionsObject support1 support2 R1 R2) st in
      match sampleLoop beamLength support1 support2 R1 R2 loads dx
                       numPoints 0 [] with
      | Normal data => publish st data
      | Throw e => (st, Throw e)
      end
  | _ => publish st []
  end.

End WithRuntime.
End BeamAnalyzer.

(* ================================================================== *)
(** ** [beam_analysis_engine.js]: the validation boundary *)
(* ================================================================== *)

Module Engine.

Inductive Material : Type := steel | concrete | wood | aluminum.

(** [materials[key].E] *)
Definition E (m : Material) : number :=
  match m with
  | steel => of_Z 200000000000
  | concrete => of_Z 30000000000
  | wood => of_Z 12000000000
  | aluminum => of_Z 70000000000
  end.

(** The elements of the global arrays [supports] and [loads], without their
    [mesh]. *)
Record Support : Type := {
  position : number;
  type : string
}.

Inductive Load : Type :=
| concentrated (position magnitude : number)
| distributed (startPos endPos startIntensity endIntensity : number).

(** The global variables the engine validates against and sends. *)
Record Globals : Type := {
  beamLength : number;
  supports : list Support;
  loads : list Load
}.

Definition initialGlobals : Globals :=
  {| beamLength := of_Z 10; supports := []; loads := [] |}.

(** The values read from the load form: [loadType] selects the fields, each
    field is what [parseFloat] returned for it ([NaN] for an empty or
    malformed field). *)
Inductive LoadForm : Type :=
| concentratedForm (loadPosition loadMagnitude : number)
| distributedForm (loadStartPos loadEndPos loadIntensity : number)
| varyingForm (loadStartPos loadEndPos loadStartIntensity loadEndIntensity : number)
| otherForm.

Module Payload.
(** The body of the request [performAnalysis] posts to the solver. *)
Record t : Type := {
  beamLength : number;
  elastic_modulus : number;
  supports : list Support;
  loads : list Load
}.
End Payload.

(** What a handler did besides updating the globals. *)
Inductive Effect : Type :=
| Alert (message : string)
| Posted (payload : Payload.t)
| Done.

Local Open Scope js_scope.

(** [createBeam]: the new length is stored as parsed; supports and loads are
    kept. *)
Definition createBeam (length : number) (g : Globals) : Globals :=
  {| beamLength := length; supports := supports g; loads := loads g |}.

(** [addSupport], lines 141-194. *)
Definition addSupport (position : number) (type : string) (g : Globals)
  : Globals * Effect :=
  if isNaN position || (position <? Fin 0) || (position >? beamLength g)
  then (g, Alert "Invalid support position!"%string)
  else
    let kept :=
      filter (fun s => abs (Engine.position s - position) >? Fin (1 # 10))
             (supports g) in
    ({| beamLength := beamLength g;
        supports := kept ++ [ {| position := position; type := type |} ];
        loads := loads g |}, Done).

Definition addConcentratedLoad (position magnitude : number) (g : Globals)
  : Globals :=
  {| beamLength := beamLength g; supports := supports g;
     loads := loads g ++ [concentrated position magnitude] |}.

Definition addDistributedLoad (startPos endPos startIntensity endIntensity : number)
    (g : Globals) : Globals :=
  {| beamLength := beamLength g; supports := supports g;
     loads := loads g ++ [distributed startPos endPos startIntensity endIntensity] |}.

(** [addLoad], lines 248-287. *)
Definition addLoad (form : LoadForm) (g : Globals) : Globals * Effect :=
  match form with
  | concentratedForm position magnitude =>
      if isNaN position || isNaN magnitude
      then (g, Alert "Invalid load parameters!"%string)
      else (addConcentratedLoad position magnitude g, Done)
  | distributedForm startPos endPos intensity =>
      if isNaN startPos || isNaN endPos || isNaN intensity
         || (startPos >=? endPos)
      then (g, Alert "Invalid load parameters!"%string)
      else (addDistributedLoad startPos endPos intensity intensity g, Done)
  | varyingForm startPos endPos startIntensity endIntensity =>
      if isNaN startPos || isNaN endPos || isNaN startIntensity
         || isNaN endIntensity || (startPos >=? endPos)
      then (g, Alert "Invalid load parameters!"%string)
      else (addDistributedLoad startPos endPos startIntensity endIntensity g,
            Done)
  | otherForm => (g, Done)
  end.

(** The payload built by [performAnalysis], lines 395-416. *)
Definition payload (material : Material) (g : Globals) : Payload.t :=
  {| Payload.beamLength := beamLength g;
     Payload.elastic_modulus := E material;
     Payload.supports :=
       map (fun s => {| position := Engine.position s; type := Engine.type s |})
           (supports g);
     Payload.loads :=
       map (fun l =>
              match l with
              | concentrated p m => concentrated p m
              | distributed a b w1 w2 => distributed a b w1 w2
              end)
           (loads g) |}.

(** [analyzeBeam], lines 371-389: the two guards, then the request. *)
Definition analyzeBeam (material : Material) (g : Globals) : Effect :=
  if (List.length (supports g) <? 2)%nat
  then Alert "Please add at least 2 supports!"%string
  else if (List.length (loads g) =? 0)%nat
  then Alert "Please add at least one load!"%string
  else Posted (payload material g).

(** Every position of a request lies in [[0, beamLength]]. *)
Definition inBeam (len p : number) : bool := (p >=? Fin 0)%js && leb p len.

Definition loadInBeam (len : number) (l : Load) : bool :=
  match l with
  | concentrated p _ => inBeam len p
  | distributed a b _ _ => inBeam len a && inBeam len b
  end.

Definition positionsInBeam (p : Payload.t) : bool :=
  forallb (fun s => inBeam (Payload.beamLength p) (position s))
          (Payload.supports p)
  && forallb (loadInBeam (Payload.beamLength p)) (Payload.loads p).

End Engine.

(* ================================================================== *)
(** ** The statics of the specification, for comparison *)
(* ================================================================== *)

Module Spec.
Import BeamAnalyzer.
Local Open Scope js_scope.

(** The loads the analysis reads: those of type ['concentrated']. *)
Definition isConcentrated (l : Load) : bool :=
  match l with
  | concentrated _ _ => true
  | distributed _ _ _ _ => false
  end.

(** A load whose numbers that the analysis reads are finite. *)
Definition finiteLoad (l : Load) : bool :=
  match l with
  | concentrated p m => isFinite p && isFinite m
  | distributed _ _ _ _ => true
  end.

(** A load that acts at or before the position [len]. *)
Definition actsWithin (len : number) (l : Load) : bool :=
  match l with
  | concentrated p _ => leb p len
  | distributed _ _ _ _ => true
  end.

(** Spec, section 3: the resultant magnitude of a load; for a uniformly
    varying load, [(w1 + w2) / 2 * L] with [L = end_pos - start_pos]. *)
Definition resultant_magnitude (l : Load) : number :=
  match l with
  | concentrated _ m => m
  | distributed a b w1 w2 => (w1 + w2) / Fin 2 * (b - a)
  end.

(** The sum of all load magnitudes. *)
Definition total_magnitude (loads : list Load) : number :=
  fold_left (fun acc l => acc + resultant_magnitude l) loads (Fin 0).

Definition min (a b : number) : number := if a <? b then a else b.

(** Spec, section 4.3: the integral of the intensity of a distributed load over
    [[start_pos, min x end_pos]]; the intensity runs linearly from [w1] at
    [start_pos] to [w2] at [end_pos].  Zero while [x] has not passed
    [start_pos]. *)
Definition partial_resultant (a b w1 w2 x : number) : number :=
  if x >? a then
    let t := min x b - a in
    w1 * t + (w2 - w1) / (b - a) * (t * t) / Fin 2
  else Fin 0.

(** Spec, section 4.3: the shear at [x] by superposition, a distributed load
    entering with its partial resultant. *)
Definition subtract (x v : number) (l : Load) : number :=
  match l with
  | concentrated p m => if x >=? p then v - m else v
  | distributed a b w1 w2 => v - partial_resultant a b w1 w2 x
  end.

Definition shear (support1 support2 : Support) (R1 R2 : number)
    (loads : list Load) (x : number) : number :=
  let v := if x >=? position support1 then Fin 0 + R1 else Fin 0 in
  let v := fold_left (subtract x) loads v in
  if x >=? position support2 then v + R2 else v.

(** Spec, section 8: global vertical equilibrium of the computed reactions,
    over all the loads. *)
Definition vertical_equilibrium (support1 support2 : Support)
    (loads : list Load) : Prop :=
  fst (solveReactions support1 support2 loads)
  + snd (solveReactions support1 support2 loads)
  ≈ total_magnitude loads.

End Spec.

(* ================================================================== *)
(** ** Inputs used below *)
(* ================================================================== *)

Module Inputs.
Import BeamAnalyzer.

(** The initial state of the component (lines 15-22). *)
Definition defaultLength : number := of_Z 10.
Definition pinAt2 : Support := {| position := of_Z 2; type := pin |}.
Definition rollerAt8 : Support := {| position := of_Z 8; type := roller |}.
Definition defaultSupports : list Support := [pinAt2; rollerAt8].
Definition defaultLoads : list Load := [concentrated (of_Z 5) (of_Z 50)].

(** The scenario of the specification, section 8. *)
Definition scenarioLoads : list Load :=
  [ concentrated (of_Z 1) (of_Z 50);
    concentrated (of_Z 6) (of_Z 30);
    concentrated (of_Z 9) (of_Z 40) ].

(** A uniform load of intensity 10 over the whole default beam. *)
Definition uniformLoad : Load :=
  distributed (of_Z 0) (of_Z 10) (of_Z 10) (of_Z 10).

(** Two supports at the same position, and a load beside them. *)
Definition pinAt5 : Support := {| position := of_Z 5; type := pin |}.
Definition coincidentSupports : list Support := [pinAt5; pinAt5].
Definition offsetLoad : list Load := [concentrated (of_Z 7) (of_Z 50)].

(** One runtime, to instantiate statements at concrete inputs.  Nothing below
    depends on which one: its numbers print with their integer part only, its
    parsers and its sine are constant. *)
Definition plainToString (n : number) : string :=
  match n with
  | NaN => "NaN"
  | PosInf => "Infinity"
  | NegInf => "-Infinity"
  | Fin q => ((if Qle_bool 0 q then "" else "-")
              ++ digits (Z.to_N (Qfloor (Qabs q))))%string
  end.

Definition plainRuntime : Runtime :=
  {| Number_toString := plainToString;
     StringToNumber := fun _ => NaN;
     parseFloat := fun _ => NaN;
     Math_sin := fun _ => Fin 0;
     Math_PI := Fin (355 # 113) |}.

End Inputs.

Module EngineInputs.
Import Engine.

(** The page after a pin at 2, a roller at 8 and a concentrated load of 5 at
    the position 15 were entered on the default beam of length 10. *)
Definition twoSupports : Globals :=
  fst (addSupport (of_Z 8) "roller"
         (fst (addSupport (of_Z 2) "pin" initialGlobals))).
Definition overhangingLoad : LoadForm := concentratedForm (of_Z 15) (of_Z 5).
Definition loadPastTheEnd : Globals := fst (addLoad overhangingLoad twoSupports).

(** The same two supports and a load of 5 at 3, after the beam length was
    changed to 5. *)
Definition shortenedBeam : Globals :=
  fst (addLoad (concentratedForm (of_Z 3) (of_Z 5))
               (createBeam (of_Z 5) twoSupports)).

End EngineInputs.

(* ================================================================== *)
(** ** The sampling loop of [BeamAnalyzer.jsx] stops at its second turn *)
(* ================================================================== *)

Section SamplingLoop.
Import BeamAnalyzer.
Context {RT : Runtime}.
Variables (beamLength : number) (support1 support2 : Support).
Variables (R1 R2 : number) (loads : list Load) (dx : number).

Let step := sampleStep beamLength support1 support2 R1 R2 loads dx.
Let loop := sampleLoop beamLength support1 support2 R1 R2 loads dx.
Let shearAt (i : nat) : number :=
  sampleShear support1 support2 R1 R2 loads (of_nat i * dx)%js.

(** The record pushed by the first turn. *)
Definition firstSample : Sample :=
  {| x := toFixed (of_nat 0 * dx)%js 2;
     shear := toFixed (shearAt 0%nat) 2;
     moment := "0.00";
     deflection :=
       toFixed (sampleDeflection beamLength (of_nat 0 * dx)%js (VNum (Fin 0))) 4 |}.

Lemma sampleStep_first : step [] 0%nat = Normal [firstSample].
Proof. reflexivity. Qed.

(** Once the previous element of [data] holds a non-empty [moment] string,
    [moment] is a string as well. *)
Lemma sampleMoment_string (data : list Sample) (i : nat) (d : Sample) (sh : number) :
  (0 < i)%nat ->
  nth_error data (i - 1) = Some d ->
  is_empty (moment d) = false ->
  exists s, sampleMoment data i sh dx = VStr s.
Proof.
  intros Hi Hd Hm. unfold sampleMoment.
  destruct (Nat.ltb_spec 0 i) as [_|]; [|lia].
  unfold optional_field. rewrite Hd.
  assert (Ht : js_or (VStr (moment d)) (VNum (Fin 0)) = VStr (moment d)).
  { unfold js_or, ToBoolean. now rewrite Hm. }
  rewrite Ht. unfold js_plus. eauto.
Qed.

Lemma sampleStep_throws (data : list Sample) (i : nat) (d : Sample) :
  (0 < i)%nat ->
  nth_error data (i - 1) = Some d ->
  is_empty (moment d) = false ->
  step data i = Throw (TypeError "toFixed is not a function").
Proof.
  intros Hi Hd Hm. unfold step, sampleStep.
  destruct (sampleMoment_string data i d
              (sampleShear support1 support2 R1 R2 loads (of_nat i * dx)%js)
              Hi Hd Hm) as [s Hs].
  rewrite Hs. reflexivity.
Qed.

Lemma sampleLoop_throws (n : nat) :
  loop (S (S n)) 0%nat [] = Throw (TypeError "toFixed is not a function").
Proof.
  unfold loop. cbn [sampleLoop]. fold step. rewrite sampleStep_first. cbn [bind].
  rewrite (sampleStep_throws [firstSample] 1 firstSample); auto.
Qed.

End SamplingLoop.

(* ================================================================== *)
(** ** Facts about numbers *)
(* ================================================================== *)

Section NumberFacts.
Local Open Scope js_scope.

Lemma same_refl (a : number) : a ≈ a.
Proof. destruct a; simpl; auto. reflexivity. Qed.

Lemma same_sym (a b : number) : a ≈ b -> b ≈ a.
Proof. destruct a, b; simpl; auto. intros H; now symmetry. Qed.

Lemma same_trans (a b c : number) : a ≈ b -> b ≈ c -> a ≈ c.
Proof.
  destruct a, b, c; simpl; auto; try contradiction.
  intros H1 H2. now rewrite H1.
Qed.

Lemma sameb_same (a b : number) : sameb a b = true <-> a ≈ b.
Proof.
  destruct a, b; simpl; try apply Qeq_bool_iff;
    split; intros H; try discriminate; try contradiction; auto.
Qed.

Lemma isFinite_Fin (a : number) : isFinite a = true -> exists q, a = Fin q.
Proof. destruct a; try discriminate. eauto. Qed.

Lemma geb_Fin (a b : Q) : (Fin a >=? Fin b) = true <-> (b <= a)%Q.
Proof.
  unfold geb, compare.
  destruct (Qcompare_spec a b) as [H|H|H]; split; intros G;
    try reflexivity; try discriminate.
  - rewrite H. apply Qle_refl.
  - exfalso. apply (Qlt_irrefl a). now apply Qlt_le_trans with b.
  - now apply Qlt_le_weak.
Qed.

End NumberFacts.

(* ================================================================== *)
(** ** The reaction solver *)
(* ================================================================== *)

Section ReactionSolver.
Import BeamAnalyzer Spec.
Local Open Scope js_scope.

(** [totalLoad] is the sum of the magnitudes of the concentrated loads, in
    the order of the array. *)
Lemma sumLoads_fold_total (s1 : Support) (loads : list Load) (t m : number) :
  fst (fold_left (accumulateLoad s1) loads (t, m))
  = fold_left (fun acc l => acc + resultant_magnitude l)
              (filter isConcentrated loads) t.
Proof.
  revert t m. induction loads as [|l loads IH]; intros t m; [reflexivity|].
  destruct l; cbn [fold_left filter isConcentrated accumulateLoad]; apply IH.
Qed.

Lemma sumLoads_total (s1 : Support) (loads : list Load) :
  fst (sumLoads s1 loads) = total_magnitude (filter isConcentrated loads).
Proof. apply sumLoads_fold_total. Qed.

(** The solver reads concentrated loads only. *)
Lemma sumLoads_filter (s1 : Support) (loads : list Load) :
  sumLoads s1 loads = sumLoads s1 (filter isConcentrated loads).
Proof.
  unfold sumLoads. generalize (Fin 0, Fin 0) as acc.
  induction loads as [|l loads IH]; intros [t m]; [reflexivity|].
  destruct l; cbn [fold_left filter isConcentrated]; apply IH.
Qed.

Lemma sumLoads_fold_finite (a : Q) (s1 : Support) (loads : list Load) :
  position s1 = Fin a ->
  forallb finiteLoad loads = true ->
  forall t m : Q, exists t' m' : Q,
    fold_left (accumulateLoad s1) loads (Fin t, Fin m) = (Fin t', Fin m').
Proof.
  intros Ha. induction loads as [|l loads IH]; intros Hf t m.
  - exists t, m. reflexivity.
  - cbn [forallb] in Hf. apply andb_prop in Hf as [Hl Hf].
    destruct l as [p mg|]; cbn [fold_left accumulateLoad].
    + cbn [finiteLoad] in Hl. apply andb_prop in Hl as [Hp Hm].
      apply isFinite_Fin in Hp as [p' ->]. apply isFinite_Fin in Hm as [mg' ->].
      rewrite Ha. cbn [add sub neg mul]. apply IH, Hf.
    + apply IH, Hf.
Qed.

Lemma sumLoads_finite (s1 : Support) (loads : list Load) :
  isFinite (position s1) = true ->
  forallb finiteLoad loads = true ->
  exists t m : Q, sumLoads s1 loads = (Fin t, Fin m).
Proof.
  intros H1 Hf. apply isFinite_Fin in H1 as [a Ha].
  apply (sumLoads_fold_finite a s1 loads Ha Hf).
Qed.

(** Distinct finite support positions: the span is not zero and the
    quotient is the rational one. *)
Lemma solveReactions_finite (s1 s2 : Support) (loads : list Load)
    (p1 p2 t m : Q) :
  position s1 = Fin p1 -> position s2 = Fin p2 -> ~ (p1 == p2)%Q ->
  sumLoads s1 loads = (Fin t, Fin m) ->
  solveReactions s1 s2 loads
  = (Fin (t + - (m / (p2 + - p1))), Fin (m / (p2 + - p1))).
Proof.
  intros H1 H2 Hne Hs. unfold solveReactions. rewrite H1, H2, Hs.
  cbn [sub neg add div].
  destruct (Qeq_bool (p2 + - p1) 0) eqn:E; [|reflexivity].
  apply Qeq_bool_iff in E. exfalso. apply Hne. lra.
Qed.

(** Coincident finite support positions: the span is zero and the quotient
    is the one by zero. *)
Lemma solveReactions_degenerate (s1 s2 : Support) (loads : list Load)
    (p1 p2 : Q) :
  position s1 = Fin p1 -> position s2 = Fin p2 -> (p1 == p2)%Q ->
  solveReactions s1 s2 loads
  = (fst (sumLoads s1 loads) - snd (sumLoads s1 loads) / Fin 0,
     snd (sumLoads s1 loads) / Fin 0).
Proof.
  intros H1 H2 He. unfold solveReactions. rewrite H1, H2.
  destruct (sumLoads s1 loads) as [t m]. cbn [fst snd sub neg add].
  assert (E : Qeq_bool (p2 + - p1) 0 = true) by (apply Qeq_bool_iff; lra).
  assert (D : m / Fin (p2 + - p1) = m / Fin 0).
  { destruct m; cbn [div]; rewrite ?E; try reflexivity.
    assert (L : Qle_bool 0 (p2 + - p1) = true) by (apply Qle_bool_iff; lra).
    now rewrite L.
    assert (L : Qle_bool 0 (p2 + - p1) = true) by (apply Qle_bool_iff; lra).
    now rewrite L. }
  now rewrite D.
Qed.

End ReactionSolver.

(* ================================================================== *)
(** ** The analysis of [BeamAnalyzer.jsx] *)
(* ================================================================== *)

Section Analysis.
Import BeamAnalyzer Spec Inputs.
Local Open Scope js_scope.

(** With two supports or more the callback publishes the reactions and then
    leaves with the exception of the second turn of the sampling loop. *)
Lemma analyzeBeam_outcome {RT : Runtime} (st : State) (beamLength : number)
    (s1 s2 : Support) (rest : list Support) (loads : list Load) :
  analyzeBeam st beamLength (s1 :: s2 :: rest) loads
  = (setReactions
       (reactionsObject s1 s2 (fst (solveReactions s1 s2 loads))
                        (snd (solveReactions s1 s2 loads))) st,
     Throw (TypeError "toFixed is not a function")).
Proof.
  unfold analyzeBeam. destruct (solveReactions s1 s2 loads) as [R1 R2].
  cbn [fst snd]. change numPoints with (S (S 98)).
  now rewrite sampleLoop_throws.
Qed.

(** X7. With fewer than two supports nothing is computed: the reactions are
    not touched, the published field is empty, and the largest deflection is
    [Math.max()] of no argument, [-Infinity]. *)
Theorem few_supports_publish_empty_field (RT : Runtime) (st : State)
    (beamLength : number) (supports : list Support) (loads : list Load) :
  (List.length supports < 2)%nat ->
  analyzeBeam st beamLength supports loads
  = (setMaxDeflection NegInf (setAnalysisData [] st), Normal []).
Proof.
  intros H. destruct supports as [|s1 [|s2 rest]]; try reflexivity.
  simpl in H. lia.
Qed.

Lemma few_supports_publish_empty_field_witness :
  @analyzeBeam plainRuntime initialState defaultLength [pinAt2] defaultLoads
  = (setMaxDeflection NegInf (setAnalysisData [] initialState), Normal []).
Proof.
  apply (few_supports_publish_empty_field plainRuntime initialState
           defaultLength [pinAt2] defaultLoads).
  simpl. lia.
Defined.

(** C1. For the beam of length 10 with supports at 2 and 8 and concentrated
    loads 50 at 1, 30 at 6 and 40 at 9, the reactions that the analysis
    publishes are [R1] under the key 2 and [R2] under the key 8, with
    [R1 + R2 = 120] and [R2 * 6 = 350], that is [R2 = 350/6] (58.33 to
    two decimals) and [R1 = 120 - R2] (61.67). *)
Theorem scenario_reactions (RT : Runtime) (st : State) :
  exists R1 R2 : number,
    let after := fst (analyzeBeam st (of_Z 10) defaultSupports scenarioLoads) in
    obj_get (of_Z 2) (reactions after) = Some R1 /\
    obj_get (of_Z 8) (reactions after) = Some R2 /\
    R1 + R2 ≈ of_Z 120 /\
    R2 * of_Z 6 ≈ of_Z 350 /\
    R2 ≈ Fin (350 # 6) /\
    R1 ≈ of_Z 120 - R2 /\
    toFixed R2 2 = "58.33"%string /\
    toFixed R1 2 = "61.67"%string.
Proof.
  exists (Fin (370 # 6)), (Fin (350 # 6)).
  unfold defaultSupports. rewrite analyzeBeam_outcome. cbn [fst].
  repeat split; vm_compute; reflexivity.
Qed.

(** The claim of C2 as the specification words it fails on a distributed
    load: the supports at 2 and 8 are distinct, the only load is uniform of
    intensity 10 over [0, 10] (magnitude 100), and the reactions sum to 0. *)
Lemma distributed_load_breaks_equilibrium :
  sameb (of_Z 2) (of_Z 8) = false /\
  total_magnitude [uniformLoad] ≈ of_Z 100 /\
  fst (solveReactions pinAt2 rollerAt8 [uniformLoad])
  + snd (solveReactions pinAt2 rollerAt8 [uniformLoad]) ≈ Fin 0 /\
  ~ vertical_equilibrium pinAt2 rollerAt8 [uniformLoad].
Proof.
  repeat split; try (vm_compute; reflexivity).
  vm_compute. discriminate.
Qed.

(** C2, amended. For two supports at distinct finite positions and every
    list of loads whose concentrated loads are finite, the two reactions sum
    to the sum of the magnitudes of the concentrated loads; a distributed
    load adds nothing to either side. *)
Theorem reactions_sum_to_concentrated_total (s1 s2 : Support)
    (loads : list Load) :
  isFinite (position s1) = true ->
  isFinite (position s2) = true ->
  sameb (position s1) (position s2) = false ->
  forallb finiteLoad loads = true ->
  fst (solveReactions s1 s2 loads) + snd (solveReactions s1 s2 loads)
  ≈ total_magnitude (filter isConcentrated loads).
Proof.
  intros F1 F2 Hd Hf.
  destruct (sumLoads_finite s1 loads F1 Hf) as (t & m & Hs).
  apply isFinite_Fin in F1 as [p1 E1]. apply isFinite_Fin in F2 as [p2 E2].
  assert (Hne : ~ (p1 == p2)%Q).
  { intros He. rewrite E1, E2 in Hd. cbn [sameb] in Hd.
    apply Qeq_bool_iff in He. congruence. }
  rewrite (solveReactions_finite s1 s2 loads p1 p2 t m E1 E2 Hne Hs).
  rewrite <- (sumLoads_total s1), Hs. cbn [fst snd add same]. ring.
Qed.

Lemma reactions_sum_to_concentrated_total_witness :
  fst (solveReactions pinAt2 rollerAt8
                      (uniformLoad :: scenarioLoads))
  + snd (solveReactions pinAt2 rollerAt8
                        (uniformLoad :: scenarioLoads))
  ≈ total_magnitude (filter isConcentrated (uniformLoad :: scenarioLoads)).
Proof.
  apply (reactions_sum_to_concentrated_total
           pinAt2 rollerAt8 (uniformLoad :: scenarioLoads)); reflexivity.
Defined.

Lemma sameb_sym (a b : number) : sameb a b = sameb b a.
Proof.
  destruct a, b; try reflexivity. cbn [sameb].
  destruct (Qeq_bool q q0) eqn:E1, (Qeq_bool q0 q) eqn:E2; try reflexivity.
  - apply Qeq_bool_iff in E1. symmetry in E1. apply Qeq_bool_iff in E1. congruence.
  - apply Qeq_bool_iff in E2. symmetry in E2. apply Qeq_bool_iff in E2. congruence.
Qed.

Lemma sameb_trans (a b c : number) :
  sameb a b = true -> sameb c a = sameb c b.
Proof.
  intros H. apply sameb_same in H.
  destruct (sameb c a) eqn:E1, (sameb c b) eqn:E2; try reflexivity.
  - apply sameb_same in E1. pose proof (same_trans _ _ _ E1 H) as T.
    apply sameb_same in T. congruence.
  - apply sameb_same in E2. pose proof (same_trans _ _ _ E2 (same_sym _ _ H)) as T.
    apply sameb_same in T. congruence.
Qed.

(** The keys of the published object are the positions of the first two
    supports; when they coincide the object has the single entry of the
    second reaction. *)
Lemma reactionsObject_coincident (s1 s2 : Support) (R1 R2 : number) :
  sameb (position s1) (position s2) = true ->
  reactionsObject s1 s2 R1 R2 = [(position s1, R2)].
Proof.
  intros H. unfold reactionsObject, obj_set. cbn [obj_has existsb app fst].
  rewrite (sameb_sym (position s2)), H. cbn [orb map fst].
  now rewrite (sameb_sym (position s2)), H.
Qed.

Lemma reactionsObject_keys (s1 s2 : Support) (R1 R2 k : number) :
  obj_has k (reactionsObject s1 s2 R1 R2)
  = sameb k (position s1) || sameb k (position s2).
Proof.
  destruct (sameb (position s1) (position s2)) eqn:H.
  - rewrite reactionsObject_coincident by exact H.
    cbn [obj_has existsb fst]. rewrite (sameb_trans _ _ k H).
    now destruct (sameb k (position s2)).
  - unfold reactionsObject, obj_set. cbn [obj_has existsb app fst].
    rewrite (sameb_sym (position s2)), H. cbn [orb existsb app fst].
    now rewrite orb_false_r.
Qed.

(** At two supports at position 5 and a load of 50 at 7 the solver divides
    the moment 100 by the span 0: the reactions are [-Infinity] and
    [+Infinity], and [+Infinity] is published under the key 5 before the
    callback ends. *)
Lemma coincident_supports_publish_infinity :
  solveReactions pinAt5 pinAt5 offsetLoad = (NegInf, PosInf) /\
  reactions (fst (@analyzeBeam plainRuntime initialState (of_Z 10)
                               coincidentSupports offsetLoad))
  = [(of_Z 5, PosInf)] /\
  reactions initialState = [].
Proof. repeat split; vm_compute; reflexivity. Qed.

(** C5, amended. When the first two supports have the same finite position
    and the concentrated loads are finite, the solver raises no error of its
    own: it divides the moment sum by the zero span, so that [R2] is
    [+Infinity], [-Infinity] or [NaN] and [R1 = totalLoad - R2] is not finite
    either, and it publishes [R2] under the one key the two supports share. *)
Theorem coincident_supports_divide_by_zero (RT : Runtime) (st : State)
    (beamLength : number) (s1 s2 : Support) (rest : list Support)
    (loads : list Load) :
  isFinite (position s1) = true ->
  sameb (position s1) (position s2) = true ->
  forallb finiteLoad loads = true ->
  snd (solveReactions s1 s2 loads) = snd (sumLoads s1 loads) / Fin 0 /\
  fst (solveReactions s1 s2 loads)
  = fst (sumLoads s1 loads) - snd (solveReactions s1 s2 loads) /\
  isFinite (snd (solveReactions s1 s2 loads)) = false /\
  isFinite (fst (solveReactions s1 s2 loads)) = false /\
  reactions (fst (analyzeBeam st beamLength (s1 :: s2 :: rest) loads))
  = [(position s1, snd (solveReactions s1 s2 loads))].
Proof.
  intros F1 Hs Hf.
  destruct (sumLoads_finite s1 loads F1 Hf) as (t & m & Hsum).
  apply isFinite_Fin in F1 as [p1 E1].
  assert (E2 : exists p2, position s2 = Fin p2 /\ (p1 == p2)%Q).
  { rewrite E1 in Hs. destruct (position s2) as [p2| | |]; try discriminate.
    exists p2. split; [reflexivity|]. now apply Qeq_bool_iff. }
  destruct E2 as (p2 & E2 & He).
  rewrite analyzeBeam_outcome, (reactionsObject_coincident s1 s2) by
    (rewrite E1, E2; now apply Qeq_bool_iff).
  rewrite (solveReactions_degenerate s1 s2 loads p1 p2 E1 E2 He), Hsum.
  cbn [fst snd setReactions reactions div]. change (Qeq_bool 0 0) with true.
  cbv iota. repeat split.
  - now destruct (m ?= 0)%Q.
  - unfold sub. now destruct (m ?= 0)%Q.
Qed.

Lemma coincident_supports_divide_by_zero_witness :
  snd (solveReactions pinAt5 pinAt5 offsetLoad)
  = snd (sumLoads pinAt5 offsetLoad) / Fin 0 /\
  fst (solveReactions pinAt5 pinAt5 offsetLoad)
  = fst (sumLoads pinAt5 offsetLoad) - snd (solveReactions pinAt5 pinAt5 offsetLoad) /\
  isFinite (snd (solveReactions pinAt5 pinAt5 offsetLoad)) = false /\
  isFinite (fst (solveReactions pinAt5 pinAt5 offsetLoad)) = false /\
  reactions (fst (@analyzeBeam plainRuntime initialState (of_Z 10)
                               (pinAt5 :: pinAt5 :: []) offsetLoad))
  = [(position pinAt5, snd (solveReactions pinAt5 pinAt5 offsetLoad))].
Proof.
  apply (coincident_supports_divide_by_zero plainRuntime initialState (of_Z 10)
           pinAt5 pinAt5 [] offsetLoad); reflexivity.
Defined.

(** C10. The outcome of the analysis (published reactions, field, exception)
    is the same for two support lists that agree on their first two
    elements, and the published object holds reactions under the positions
    of these two supports only. *)
Theorem extra_supports_are_ignored (RT : Runtime) (st : State)
    (beamLength : number) (s1 s2 : Support) (rest rest' : list Support)
    (loads : list Load) :
  analyzeBeam st beamLength (s1 :: s2 :: rest) loads
  = analyzeBeam st beamLength (s1 :: s2 :: rest') loads /\
  (forall k : number,
     obj_has k (reactions (fst (analyzeBeam st beamLength (s1 :: s2 :: rest) loads)))
     = sameb k (position s1) || sameb k (position s2)).
Proof.
  split; [reflexivity|].
  intros k. rewrite analyzeBeam_outcome. cbn [fst setReactions reactions].
  apply reactionsObject_keys.
Qed.

(** The sweep skips every load that is not concentrated. *)
Lemma fold_subtractLoad_filter (x : number) (loads : list Load) (v : number) :
  fold_left (subtractLoad x) loads v
  = fold_left (subtractLoad x) (filter isConcentrated loads) v.
Proof.
  revert v. induction loads as [|l loads IH]; intros v; [reflexivity|].
  destruct l; cbn [fold_left filter isConcentrated subtractLoad]; apply IH.
Qed.

(** On concentrated loads the sweep is the superposition of the
    specification. *)
Lemma fold_subtractLoad_spec (x : number) (loads : list Load) (v : number) :
  fold_left (subtractLoad x) (filter isConcentrated loads) v
  = fold_left (subtract x) (filter isConcentrated loads) v.
Proof.
  revert v. induction loads as [|l loads IH]; intros v; [reflexivity|].
  destruct l; cbn [fold_left filter isConcentrated subtractLoad subtract];
    apply IH.
Qed.

(** The claim of C4 fails at sample 50 of the default beam under the uniform
    load of intensity 10 over [0, 10]: the position [x = 50 * 10/99] is past
    the start of the load, the rule of the specification gives the shear
    [-(10 * x) = -5000/99], and the sweep gives 0. *)
Lemma distributed_load_absent_from_shear :
  (of_nat 50 * sampleSpacing defaultLength >? of_Z 0) = true /\
  fst (solveReactions pinAt2 rollerAt8 [uniformLoad]) ≈ Fin 0 /\
  snd (solveReactions pinAt2 rollerAt8 [uniformLoad]) ≈ Fin 0 /\
  Spec.shear pinAt2 rollerAt8 (Fin 0) (Fin 0) [uniformLoad]
             (of_nat 50 * sampleSpacing defaultLength) ≈ Fin (- 5000 # 99) /\
  sampleShear pinAt2 rollerAt8 (Fin 0) (Fin 0) [uniformLoad]
              (of_nat 50 * sampleSpacing defaultLength) ≈ Fin 0 /\
  sameb (sampleShear pinAt2 rollerAt8 (Fin 0) (Fin 0) [uniformLoad]
                     (of_nat 50 * sampleSpacing defaultLength))
        (Spec.shear pinAt2 rollerAt8 (Fin 0) (Fin 0) [uniformLoad]
                    (of_nat 50 * sampleSpacing defaultLength)) = false.
Proof. repeat split; vm_compute; reflexivity. Qed.

(** C4, amended. At every position the shear of the sweep is the one of the
    concentrated loads alone, which is the superposition rule of the
    specification on these loads: a distributed load enters neither with a
    partial integral nor with a lumped resultant, and the reactions used by
    the sweep do not read it either. *)
Theorem shear_reads_concentrated_loads_only (s1 s2 : Support) (R1 R2 : number)
    (loads : list Load) (x : number) :
  sampleShear s1 s2 R1 R2 loads x
  = sampleShear s1 s2 R1 R2 (filter isConcentrated loads) x /\
  sampleShear s1 s2 R1 R2 loads x
  = Spec.shear s1 s2 R1 R2 (filter isConcentrated loads) x /\
  solveReactions s1 s2 loads
  = solveReactions s1 s2 (filter isConcentrated loads).
Proof.
  unfold sampleShear, Spec.shear, solveReactions.
  rewrite (fold_subtractLoad_filter x loads).
  rewrite (fold_subtractLoad_spec x loads).
  rewrite <- (sumLoads_filter s1 loads).
  repeat apply conj; reflexivity.
Qed.

(** C3. On the default beam (length 10, supports at 2 and 8, load 50 at 5)
    the first turn stores the moment 0 as the string "0.00"; at the second
    turn the trapezoid step reads that string back, so that its [+] is a
    concatenation: [moment] is a string that starts with "0.00" and not
    [moment[0] + (shear[0] + shear[1]) / 2 * dx], its [toFixed] does not
    exist, and the callback ends with a [TypeError]. *)
Theorem trapezoid_step_concatenates (RT : Runtime) :
  exists (first : Sample) (s : string),
    sampleStep defaultLength pinAt2 rollerAt8
      (fst (solveReactions pinAt2 rollerAt8 defaultLoads))
      (snd (solveReactions pinAt2 rollerAt8 defaultLoads))
      defaultLoads (sampleSpacing defaultLength) [] 0
    = Normal [first] /\
    moment first = "0.00"%string /\
    sampleMoment [first] 1
      (sampleShear pinAt2 rollerAt8
         (fst (solveReactions pinAt2 rollerAt8 defaultLoads))
         (snd (solveReactions pinAt2 rollerAt8 defaultLoads))
         defaultLoads (of_nat 1 * sampleSpacing defaultLength))
      (sampleSpacing defaultLength)
    = VStr ("0.00" ++ s)%string /\
    call_toFixed (VStr ("0.00" ++ s)%string) 2
    = Throw (TypeError "toFixed is not a function") /\
    snd (analyzeBeam initialState defaultLength defaultSupports defaultLoads)
    = Throw (TypeError "toFixed is not a function").
Proof.
  eexists. eexists. split; [apply sampleStep_first|].
  split; [reflexivity|]. split; [reflexivity|]. split; [reflexivity|].
  unfold defaultSupports. now rewrite analyzeBeam_outcome.
Qed.

(** C6. The default beam is closed (load 50, reactions 25 and 25, every
    position within the beam) and the shear expression of the sweep is 0 at
    [x = 99 * dx], but the loop never gets there: the callback ends with a
    [TypeError] at its second turn and [analysisData] keeps its old value,
    so that no shear of a last sample exists. *)
Theorem closed_beam_yields_no_last_sample (RT : Runtime) (st : State) :
  fst (solveReactions pinAt2 rollerAt8 defaultLoads) ≈ of_Z 25 /\
  snd (solveReactions pinAt2 rollerAt8 defaultLoads) ≈ of_Z 25 /\
  sampleShear pinAt2 rollerAt8
    (fst (solveReactions pinAt2 rollerAt8 defaultLoads))
    (snd (solveReactions pinAt2 rollerAt8 defaultLoads))
    defaultLoads (of_nat (numPoints - 1) * sampleSpacing defaultLength)
  ≈ Fin 0 /\
  snd (analyzeBeam st defaultLength defaultSupports defaultLoads)
  = Throw (TypeError "toFixed is not a function") /\
  analysisData (fst (analyzeBeam st defaultLength defaultSupports defaultLoads))
  = analysisData st.
Proof.
  unfold defaultSupports. rewrite analyzeBeam_outcome.
  repeat split; vm_compute; reflexivity.
Qed.

(** C7. On the scenario beam (supports at 2 and 8, loads 50 at 1, 30 at 6
    and 40 at 9) the moment of the first sample is the string "0.00", and
    the sampling loop ends with a [TypeError] before any later sample: the
    callback returns no moment at [x = beamLength]. *)
Theorem scenario_beam_yields_no_end_moment (RT : Runtime) (st : State) :
  exists first : Sample,
    sampleStep (of_Z 10) pinAt2 rollerAt8
      (fst (solveReactions pinAt2 rollerAt8 scenarioLoads))
      (snd (solveReactions pinAt2 rollerAt8 scenarioLoads))
      scenarioLoads (sampleSpacing (of_Z 10)) [] 0
    = Normal [first] /\
    moment first = "0.00"%string /\
    sampleLoop (of_Z 10) pinAt2 rollerAt8
      (fst (solveReactions pinAt2 rollerAt8 scenarioLoads))
      (snd (solveReactions pinAt2 rollerAt8 scenarioLoads))
      scenarioLoads (sampleSpacing (of_Z 10)) numPoints 0 []
    = Throw (TypeError "toFixed is not a function") /\
    analyzeBeam st (of_Z 10) defaultSupports scenarioLoads
    = (setReactions
         (reactionsObject pinAt2 rollerAt8
            (fst (solveReactions pinAt2 rollerAt8 scenarioLoads))
            (snd (solveReactions pinAt2 rollerAt8 scenarioLoads))) st,
       Throw (TypeError "toFixed is not a function")).
Proof.
  eexists. split; [apply sampleStep_first|]. split; [reflexivity|].
  split; [apply (sampleLoop_throws _ _ _ _ _ _ _ 98)|].
  apply analyzeBeam_outcome.
Qed.

(** C8. On the default beam the deflection expression is evaluated for the
    first sample only, where it is [sin(PI * 0 / 10) * |0| / 1000]; the
    second turn throws at [moment.toFixed], before its deflection is
    evaluated, and no deflection reaches [analysisData] or [maxDeflection]. *)
Theorem deflection_of_second_sample_is_never_evaluated (RT : Runtime) (st : State) :
  exists first : Sample,
    sampleStep defaultLength pinAt2 rollerAt8
      (fst (solveReactions pinAt2 rollerAt8 defaultLoads))
      (snd (solveReactions pinAt2 rollerAt8 defaultLoads))
      defaultLoads (sampleSpacing defaultLength) [] 0
    = Normal [first] /\
    deflection first
    = toFixed (Math_sin (Math_PI * (of_nat 0 * sampleSpacing defaultLength)
                         / defaultLength)
               * abs (Fin 0) / Fin 1000) 4 /\
    sampleStep defaultLength pinAt2 rollerAt8
      (fst (solveReactions pinAt2 rollerAt8 defaultLoads))
      (snd (solveReactions pinAt2 rollerAt8 defaultLoads))
      defaultLoads (sampleSpacing defaultLength) [first] 1
    = Throw (TypeError "toFixed is not a function") /\
    analysisData (fst (analyzeBeam st defaultLength defaultSupports defaultLoads))
    = analysisData st /\
    maxDeflection (fst (analyzeBeam st defaultLength defaultSupports defaultLoads))
    = maxDeflection st.
Proof.
  eexists. split; [apply sampleStep_first|]. split; [reflexivity|].
  split; [eapply sampleStep_throws; [lia | reflexivity | reflexivity]|].
  unfold defaultSupports. now rewrite analyzeBeam_outcome.
Qed.

(** *** What the sweep would give at the end of the beam *)

Lemma leb_Fin (a b : Q) : leb (Fin a) (Fin b) = true <-> (a <= b)%Q.
Proof.
  unfold leb, compare.
  destruct (Qcompare_spec a b) as [H|H|H]; split; intros G;
    try reflexivity; try discriminate.
  - rewrite H. apply Qle_refl.
  - now apply Qlt_le_weak.
  - exfalso. apply (Qlt_irrefl b). now apply Qlt_le_trans with a.
Qed.

Lemma last_position (L : Q) :
  exists x : Q,
    of_nat (numPoints - 1) * sampleSpacing (Fin L) = Fin x /\ (x == L)%Q.
Proof.
  exists (inject_Z 99 * (L / (inject_Z 100 + - 1)))%Q.
  split; [reflexivity|]. field.
Qed.

(** When every concentrated load is finite and acts at or before [x], the
    sweep has subtracted [totalLoad]. *)
Lemma fold_subtractLoad_all (a x L : Q) (s1 : Support) (loads : list Load) :
  position s1 = Fin a -> (x == L)%Q ->
  forallb finiteLoad loads = true ->
  forallb (actsWithin (Fin L)) loads = true ->
  forall v t m t' m' : Q,
    fold_left (accumulateLoad s1) loads (Fin t, Fin m) = (Fin t', Fin m') ->
    exists v' : Q,
      fold_left (subtractLoad (Fin x)) loads (Fin v) = Fin v' /\
      (v' == v - (t' - t))%Q.
Proof.
  intros Ha Hx. induction loads as [|l loads IH]; intros Hf Hw v t m t' m' Hs.
  - cbn [fold_left] in *. injection Hs as -> _. exists v. split; [reflexivity|ring].
  - cbn [forallb] in Hf, Hw.
    apply andb_prop in Hf as [Hl Hf]. apply andb_prop in Hw as [Hwl Hw].
    destruct l as [p mg|]; cbn [fold_left accumulateLoad subtractLoad] in *.
    + cbn [finiteLoad] in Hl. apply andb_prop in Hl as [Hp Hm].
      apply isFinite_Fin in Hp as [p' ->]. apply isFinite_Fin in Hm as [g ->].
      cbn [actsWithin] in Hwl. apply leb_Fin in Hwl.
      assert (G : (Fin x >=? Fin p') = true) by (apply geb_Fin; lra).
      rewrite G. rewrite Ha in Hs. cbn [add sub neg mul] in *.
      destruct (IH Hf Hw (v + - g)%Q _ _ _ _ Hs) as (v' & E & Hv).
      exists v'. split; [exact E|]. lra.
    + apply (IH Hf Hw v _ _ _ _ Hs).
Qed.

(** X2. For two supports at distinct finite positions and finite
    concentrated loads, all at or before the beam length [L], the shear
    expression of the sweep, taken with the reactions of the solver at the
    position [(numPoints - 1) * dx] of the last sample, is 0. *)
Theorem shear_expression_closes_at_beam_end (s1 s2 : Support)
    (loads : list Load) (L : Q) :
  isFinite (position s1) = true ->
  isFinite (position s2) = true ->
  sameb (position s1) (position s2) = false ->
  leb (position s1) (Fin L) = true ->
  leb (position s2) (Fin L) = true ->
  forallb finiteLoad loads = true ->
  forallb (actsWithin (Fin L)) loads = true ->
  sampleShear s1 s2 (fst (solveReactions s1 s2 loads))
              (snd (solveReactions s1 s2 loads)) loads
              (of_nat (numPoints - 1) * sampleSpacing (Fin L))
  ≈ Fin 0.
Proof.
  intros F1 F2 Hd W1 W2 Hf Hw.
  destruct (sumLoads_finite s1 loads F1 Hf) as (t & m & Hs).
  apply isFinite_Fin in F1 as [p1 E1]. apply isFinite_Fin in F2 as [p2 E2].
  assert (Hne : ~ (p1 == p2)%Q).
  { intros He. rewrite E1, E2 in Hd. cbn [sameb] in Hd.
    apply Qeq_bool_iff in He. congruence. }
  rewrite (solveReactions_finite s1 s2 loads p1 p2 t m E1 E2 Hne Hs).
  destruct (last_position L) as (x & -> & Hx).
  rewrite E1 in W1. rewrite E2 in W2. apply leb_Fin in W1, W2.
  unfold sampleShear. rewrite E1, E2.
  assert (G1 : (Fin x >=? Fin p1) = true) by (apply geb_Fin; lra).
  assert (G2 : (Fin x >=? Fin p2) = true) by (apply geb_Fin; lra).
  rewrite G1, G2. cbn [fst snd add].
  destruct (fold_subtractLoad_all p1 x L s1 loads E1 Hx Hf Hw
              (0 + (t + - (m / (p2 + - p1))))%Q 0%Q 0%Q t m Hs) as (v' & E & Hv).
  rewrite E. cbn [add same]. lra.
Qed.

Lemma shear_expression_closes_at_beam_end_witness :
  sampleShear pinAt2 rollerAt8
    (fst (solveReactions pinAt2 rollerAt8 (uniformLoad :: scenarioLoads)))
    (snd (solveReactions pinAt2 rollerAt8 (uniformLoad :: scenarioLoads)))
    (uniformLoad :: scenarioLoads)
    (of_nat (numPoints - 1) * sampleSpacing (Fin 10))
  ≈ Fin 0.
Proof.
  apply (shear_expression_closes_at_beam_end pinAt2 rollerAt8
           (uniformLoad :: scenarioLoads) 10); reflexivity.
Defined.

(** X3. Global moment equilibrium of the solver: for two supports at
    distinct finite positions and finite concentrated loads, [R2] times the
    span is the sum of the moments of the concentrated loads about the first
    support. *)
Theorem reaction_two_balances_moments (s1 s2 : Support) (loads : list Load) :
  isFinite (position s1) = true ->
  isFinite (position s2) = true ->
  sameb (position s1) (position s2) = false ->
  forallb finiteLoad loads = true ->
  snd (solveReactions s1 s2 loads) * (position s2 - position s1)
  ≈ snd (sumLoads s1 loads).
Proof.
  intros F1 F2 Hd Hf.
  destruct (sumLoads_finite s1 loads F1 Hf) as (t & m & Hs).
  apply isFinite_Fin in F1 as [p1 E1]. apply isFinite_Fin in F2 as [p2 E2].
  assert (Hne : ~ (p1 == p2)%Q).
  { intros He. rewrite E1, E2 in Hd. cbn [sameb] in Hd.
    apply Qeq_bool_iff in He. congruence. }
  rewrite (solveReactions_finite s1 s2 loads p1 p2 t m E1 E2 Hne Hs).
  rewrite Hs, E1, E2. cbn [fst snd add sub neg mul same].
  field. intros H. apply Hne. lra.
Qed.

Lemma reaction_two_balances_moments_witness :
  snd (solveReactions pinAt2 rollerAt8 scenarioLoads)
  * (position rollerAt8 - position pinAt2)
  ≈ snd (sumLoads pinAt2 scenarioLoads).
Proof.
  apply (reaction_two_balances_moments pinAt2 rollerAt8 scenarioLoads);
    reflexivity.
Defined.


End Analysis.

(* ================================================================== *)
(** ** The validation boundary of [beam_analysis_engine.js] *)
(* ================================================================== *)

Section Validation.
Import Engine EngineInputs.
Local Open Scope js_scope.

(** C9. On the default beam of length 10 with supports at 2 and 8, the load
    form with the position 15 passes [addLoad], whose only test is [isNaN],
    and [analyzeBeam] posts a request whose load lies outside the beam. *)
Theorem load_outside_beam_reaches_solver :
  (of_Z 15 >? beamLength twoSupports) = true /\
  addLoad overhangingLoad twoSupports
  = (addConcentratedLoad (of_Z 15) (of_Z 5) twoSupports, Done) /\
  analyzeBeam steel loadPastTheEnd = Posted (payload steel loadPastTheEnd) /\
  Payload.loads (payload steel loadPastTheEnd)
  = [concentrated (of_Z 15) (of_Z 5)] /\
  positionsInBeam (payload steel loadPastTheEnd) = false /\
  addSupport (of_Z 15) "pin" twoSupports
  = (twoSupports, Alert "Invalid support position!").
Proof. repeat apply conj; reflexivity. Qed.

(** [createBeam] keeps the supports that were validated against the former
    length: the support at 8 is posted for a beam of length 5. *)
Lemma shortened_beam_keeps_supports :
  analyzeBeam steel shortenedBeam = Posted (payload steel shortenedBeam) /\
  map position (Payload.supports (payload steel shortenedBeam))
  = [of_Z 2; of_Z 8] /\
  Payload.beamLength (payload steel shortenedBeam) = of_Z 5 /\
  positionsInBeam (payload steel shortenedBeam) = false.
Proof. repeat apply conj; reflexivity. Qed.

(** X4. [analyzeBeam] posts nothing while fewer than two supports are
    stored. *)
Theorem analysis_requires_two_supports (material : Material) (g : Globals) :
  (List.length (supports g) < 2)%nat ->
  analyzeBeam material g = Alert "Please add at least 2 supports!".
Proof.
  intros H. unfold analyzeBeam.
  destruct (Nat.ltb_spec (List.length (supports g)) 2); [reflexivity|lia].
Qed.

Lemma analysis_requires_two_supports_witness :
  analyzeBeam steel (fst (addSupport (of_Z 2) "pin" initialGlobals))
  = Alert "Please add at least 2 supports!".
Proof.
  apply (analysis_requires_two_supports steel
           (fst (addSupport (of_Z 2) "pin" initialGlobals))).
  simpl. lia.
Defined.

(** X5. [addSupport] stores no support whose position is [NaN], negative or
    past the beam length. *)
Theorem support_outside_beam_is_rejected (position : number) (type : string)
    (g : Globals) :
  isNaN position || (position <? Fin 0) || (position >? beamLength g) = true ->
  addSupport position type g = (g, Alert "Invalid support position!").
Proof. intros H. unfold addSupport. now rewrite H. Qed.

Lemma support_outside_beam_is_rejected_witness :
  addSupport (of_Z 11) "pin" twoSupports
  = (twoSupports, Alert "Invalid support position!").
Proof.
  apply (support_outside_beam_is_rejected (of_Z 11) "pin" twoSupports).
  reflexivity.
Defined.

(** X6. [addLoad] stores no distributed or varying load whose start is not
    before its end. *)
Theorem reversed_span_is_rejected (a b w w1 w2 : number) (g : Globals) :
  (a >=? b) = true ->
  addLoad (distributedForm a b w) g = (g, Alert "Invalid load parameters!") /\
  addLoad (varyingForm a b w1 w2) g = (g, Alert "Invalid load parameters!").
Proof.
  intros H. unfold addLoad. rewrite H, !orb_true_r. split; reflexivity.
Qed.

Lemma reversed_span_is_rejected_witness :
  addLoad (distributedForm (of_Z 4) (of_Z 4) (of_Z 10)) twoSupports
  = (twoSupports, Alert "Invalid load parameters!") /\
  addLoad (varyingForm (of_Z 4) (of_Z 4) (of_Z 10) (of_Z 20)) twoSupports
  = (twoSupports, Alert "Invalid load parameters!").
Proof.
  apply (reversed_span_is_rejected (of_Z 4) (of_Z 4) (of_Z 10) (of_Z 10)
           (of_Z 20) twoSupports).
  reflexivity.
Defined.

End Validation.

(* ================================================================== *)
(** ** [beam_analysis_engine.js]: the other handlers of the page *)
(* ================================================================== *)

Module EngineSession.
Import Engine.
Local Open Scope js_scope.

(** [array.splice(index, 1)] for an index of the array. *)
Definition splice1 {A : Type} (index : nat) (l : list A) : list A :=
  firstn index l ++ skipn (S index) l.

(** [removeSupport(index)], lines 483-487: the read [supports[index].mesh]
    throws when the array has no element [index], before anything is
    removed. *)
Definition removeSupport (index : nat) (g : Globals)
  : Globals * completion unit :=
  match nth_error (supports g) index with
  | None => (g, Throw (TypeError "Cannot read properties of undefined"))
  | Some _ =>
      ({| beamLength := beamLength g;
          supports := splice1 index (supports g);
          loads := loads g |}, Normal tt)
  end.

(** [removeLoad(index)], lines 489-493. *)
Definition removeLoad (index : nat) (g : Globals)
  : Globals * completion unit :=
  match nth_error (loads g) index with
  | None => (g, Throw (TypeError "Cannot read properties of undefined"))
  | Some _ =>
      ({| beamLength := beamLength g;
          supports := supports g;
          loads := splice1 index (loads g) |}, Normal tt)
  end.

(** [clearAll], lines 495-503: both arrays are emptied, the length stays. *)
Definition clearAll (g : Globals) : Globals :=
  {| beamLength := beamLength g; supports := []; loads := [] |}.

(** What the user can do on the page, with the values of the form fields as
    [parseFloat] returned them. *)
Inductive Action : Type :=
| CreateBeam (length : number)
| AddSupport (position : number) (type : string)
| AddLoad (form : LoadForm)
| RemoveSupport (index : nat)
| RemoveLoad (index : nat)
| ClearAll.

(** The globals after one handler; a handler that throws or alerts leaves
    them as it found them. *)
Definition perform (g : Globals) (a : Action) : Globals :=
  match a with
  | CreateBeam length => createBeam length g
  | AddSupport position type => fst (addSupport position type g)
  | AddLoad form => fst (addLoad form g)
  | RemoveSupport index => fst (removeSupport index g)
  | RemoveLoad index => fst (removeLoad index g)
  | ClearAll => clearAll g
  end.

(** The globals after a session that starts on the freshly loaded page. *)
Definition session (actions : list Action) : Globals :=
  fold_left perform actions initialGlobals.

(** The test of line 150: two positions more than 0.1 apart. *)
Definition apart (a b : number) : bool := abs (a - b) >? Fin (1 # 10).

(** Every support is more than 0.1 away from each support stored after it. *)
Definition Separated (l : list Support) : Prop :=
  ForallOrdPairs (fun s t => apart (position s) (position t) = true) l.

(** A position that is a number and not negative. *)
Definition nonNegative (p : number) : bool := p >=? Fin 0.

(** A load as [addLoad] lets it through: no field is [NaN], and a
    distributed load starts before it ends. *)
Definition checkedLoad (l : Load) : bool :=
  match l with
  | concentrated p m => negb (isNaN p) && negb (isNaN m)
  | distributed a b w1 w2 =>
      (a <? b) && negb (isNaN w1) && negb (isNaN w2)
  end.

(** What every handler keeps true of the stored supports and loads. *)
Definition WellKept (g : Globals) : Prop :=
  Separated (supports g) /\
  Forall (fun s => nonNegative (position s) = true) (supports g) /\
  Forall (fun l => checkedLoad l = true) (loads g).

(** No two supports of the list at the same position. *)
Definition DistinctPositions (l : list Support) : Prop :=
  ForallOrdPairs (fun s t => sameb (position s) (position t) = false) l.

(** A session that enters a pin at 2, a pin at 2.05 (which replaces it), a
    roller at 8, a varying load and a rejected one, and removes nothing. *)
Definition sampleSession : list Action :=
  [ AddSupport (of_Z 2) "pin";
    AddSupport (Fin (205 # 100)) "pin";
    AddLoad (varyingForm (of_Z 1) (of_Z 4) (of_Z 0) (of_Z 20));
    AddSupport (of_Z 8) "roller";
    AddLoad (distributedForm (of_Z 6) (of_Z 6) (of_Z 10));
    RemoveSupport 7 ].

End EngineSession.

Section EngineSessionFacts.
Import Engine EngineSession.
Local Open Scope js_scope.

Lemma Separated_filter (f : Support -> bool) (l : list Support) :
  Separated l -> Separated (filter f l).
Proof.
  unfold Separated. induction 1 as [|s l Hs Hl IH]; cbn [filter].
  - constructor.
  - destruct (f s); [|exact IH]. constructor; [|exact IH].
    rewrite Forall_forall in *. intros t Ht. apply filter_In in Ht as [Ht _].
    now apply Hs.
Qed.

Lemma Separated_snoc (l : list Support) (new : Support) :
  Separated l ->
  Forall (fun s => apart (position s) (position new) = true) l ->
  Separated (l ++ [new]).
Proof.
  unfold Separated. induction 1 as [|s l Hs Hl IH]; intros Hn; cbn [app].
  - repeat constructor.
  - inversion Hn as [|? ? Hsn Hln]; subst. constructor.
    + apply Forall_app. split; [exact Hs|]. now constructor.
    + now apply IH.
Qed.

Lemma in_splice1 {A : Type} (index : nat) (l : list A) (a : A) :
  In a (splice1 index l) -> In a l.
Proof.
  unfold splice1. revert index.
  induction l as [|b l IH]; intros [|index]; cbn [firstn skipn app In]; auto.
  intros [H|H]; [now left|right; eapply IH; exact H].
Qed.

Lemma Separated_splice1 (index : nat) (l : list Support) :
  Separated l -> Separated (splice1 index l).
Proof.
  unfold Separated. intros H. revert index.
  induction H as [|s l Hs Hl IH]; intros [|index].
  - constructor.
  - constructor.
  - exact Hl.
  - change (splice1 (S index) (s :: l)) with (s :: splice1 index l).
    constructor; [|apply IH].
    rewrite Forall_forall in *. intros t Ht. apply Hs.
    eapply in_splice1; exact Ht.
Qed.

Lemma Forall_splice1 {A : Type} (P : A -> Prop) (index : nat) (l : list A) :
  Forall P l -> Forall P (splice1 index l).
Proof.
  rewrite !Forall_forall. intros H a Ha. apply H. eapply in_splice1; exact Ha.
Qed.

Lemma Forall_filter {A : Type} (P : A -> Prop) (f : A -> bool) (l : list A) :
  Forall P l -> Forall P (filter f l).
Proof.
  rewrite !Forall_forall. intros H a Ha. apply H.
  now apply filter_In in Ha as [Ha _].
Qed.

(** A number that is not [NaN] and not below another one is at least it. *)
Lemma not_ltb_geb (a b : number) :
  isNaN a = false -> isNaN b = false -> (a <? b) = false -> (a >=? b) = true.
Proof.
  unfold ltb, geb. destruct a, b; cbn [compare isNaN]; try discriminate;
    try reflexivity.
  destruct (q ?= q0)%Q; intros; try reflexivity; discriminate.
Qed.

Lemma not_geb_ltb (a b : number) :
  isNaN a = false -> isNaN b = false -> (a >=? b) = false -> (a <? b) = true.
Proof.
  unfold ltb, geb. destruct a, b; cbn [compare isNaN]; try discriminate;
    try reflexivity.
  destruct (q ?= q0)%Q; intros; try reflexivity; discriminate.
Qed.

(** Two positions that are more than 0.1 apart are not the same number. *)
Lemma apart_not_same (a b : number) : apart a b = true -> sameb a b = false.
Proof.
  unfold apart. destruct a as [x| | |], b as [y| | |]; try reflexivity;
    try (cbv; discriminate).
  cbn [sub neg add abs sameb]. unfold gtb. cbn [compare]. intros H.
  destruct (Qeq_bool x y) eqn:E; [|reflexivity].
  apply Qeq_bool_iff in E.
  assert (Z : (Qabs (x + - y) == 0)%Q).
  { assert (D : (x + - y == 0)%Q) by lra. rewrite D. reflexivity. }
  assert (C : (Qabs (x + - y) ?= 1 # 10)%Q = Lt).
  { apply Qlt_alt. rewrite Z. reflexivity. }
  rewrite C in H. discriminate.
Qed.

Lemma Separated_DistinctPositions (l : list Support) :
  Separated l -> DistinctPositions l.
Proof.
  unfold Separated, DistinctPositions.
  induction 1 as [|s l Hs Hl IH]; constructor; [|exact IH].
  rewrite Forall_forall in *. intros t Ht. now apply apart_not_same, Hs.
Qed.

(** What [addSupport] stores passed its guard. *)
Lemma addSupport_keeps (position : number) (type : string) (g : Globals) :
  WellKept g -> WellKept (fst (addSupport position type g)).
Proof.
  intros (Hs & Hn & Hl). unfold addSupport.
  destruct (isNaN position || (position <? Fin 0) || (position >? beamLength g))
    eqn:G; cbn [fst]; [now repeat split|].
  apply orb_false_iff in G as [G _]. apply orb_false_iff in G as [Gn Gz].
  repeat split; cbn [supports loads]; [| |exact Hl].
  - apply Separated_snoc; [now apply Separated_filter|].
    apply Forall_forall. intros s Hin.
    apply filter_In in Hin as [_ Hin]. exact Hin.
  - apply Forall_app. split; [now apply Forall_filter|].
    constructor; [|constructor]. cbn [Engine.position].
    now apply not_ltb_geb.
Qed.

Lemma addLoad_keeps (form : LoadForm) (g : Globals) :
  WellKept g -> WellKept (fst (addLoad form g)).
Proof.
  intros (Hs & Hn & Hl). unfold addLoad.
  destruct form as [p m|a b w|a b w1 w2|].
  - destruct (isNaN p || isNaN m) eqn:G; cbn [fst]; [now repeat split|].
    apply orb_false_iff in G as [Gp Gm].
    repeat split; cbn [addConcentratedLoad supports loads]; auto.
    apply Forall_app. split; [exact Hl|]. constructor; [|constructor].
    cbn [checkedLoad]. now rewrite Gp, Gm.
  - destruct (isNaN a || isNaN b || isNaN w || (a >=? b)) eqn:G;
      cbn [fst]; [now repeat split|].
    apply orb_false_iff in G as [G Gab]. apply orb_false_iff in G as [G Gw].
    apply orb_false_iff in G as [Ga Gb].
    repeat split; cbn [addDistributedLoad supports loads]; auto.
    apply Forall_app. split; [exact Hl|]. constructor; [|constructor].
    cbn [checkedLoad]. now rewrite (not_geb_ltb a b Ga Gb Gab), Gw.
  - destruct (isNaN a || isNaN b || isNaN w1 || isNaN w2 || (a >=? b)) eqn:G;
      cbn [fst]; [now repeat split|].
    apply orb_false_iff in G as [G Gab]. apply orb_false_iff in G as [G Gw2].
    apply orb_false_iff in G as [G Gw1]. apply orb_false_iff in G as [Ga Gb].
    repeat split; cbn [addDistributedLoad supports loads]; auto.
    apply Forall_app. split; [exact Hl|]. constructor; [|constructor].
    cbn [checkedLoad]. now rewrite (not_geb_ltb a b Ga Gb Gab), Gw1, Gw2.
  - now repeat split.
Qed.

Lemma perform_keeps (g : Globals) (a : Action) :
  WellKept g -> WellKept (perform g a).
Proof.
  intros H. destruct a as [len|p ty|form|i|i|]; cbn [perform].
  - exact H.
  - now apply addSupport_keeps.
  - now apply addLoad_keeps.
  - destruct H as (Hs & Hn & Hl). unfold removeSupport.
    destruct (nth_error (supports g) i); cbn [fst]; [|now repeat split].
    repeat split; cbn [supports loads]; auto.
    + now apply Separated_splice1.
    + now apply Forall_splice1.
  - destruct H as (Hs & Hn & Hl). unfold removeLoad.
    destruct (nth_error (loads g) i); cbn [fst]; [|now repeat split].
    repeat split; cbn [supports loads]; auto.
    now apply Forall_splice1.
  - repeat split; cbn [clearAll supports loads]; constructor.
Qed.

(** The invariant of the page: it holds when the page is loaded and every
    handler keeps it. *)
Lemma session_keeps_apart (actions : list Action) : WellKept (session actions).
Proof.
  unfold session.
  assert (H0 : WellKept initialGlobals) by (repeat split; constructor).
  revert H0. generalize initialGlobals as g.
  induction actions as [|a actions IH]; intros g Hg; cbn [fold_left].
  - exact Hg.
  - apply IH. now apply perform_keeps.
Qed.

(** X8. Whatever the user does on the page (new beam length, supports and
    loads added with any field values, removals at any index, clearing),
    the stored supports stay more than 0.1 apart from one another and at
    positions that are numbers and not negative, and every stored load has
    passed the test of [addLoad]: no field is [NaN] and a distributed load
    starts before it ends. *)
Theorem session_keeps_supports_apart_and_loads_checked (actions : list Action) :
  Separated (supports (session actions)) /\
  Forall (fun s => nonNegative (position s) = true) (supports (session actions)) /\
  Forall (fun l => checkedLoad l = true) (loads (session actions)).
Proof.
  destruct (session_keeps_apart actions) as (Hs & Hn & Hl).
  repeat apply conj; assumption.
Qed.

Lemma payload_supports (material : Material) (g : Globals) :
  Payload.supports (payload material g) = supports g.
Proof.
  cbn [payload Payload.supports]. induction (supports g) as [|s l IH];
    [reflexivity|].
  cbn [map]. rewrite IH. now destruct s.
Qed.

Lemma payload_loads (material : Material) (g : Globals) :
  Payload.loads (payload material g) = loads g.
Proof.
  cbn [payload Payload.loads]. induction (loads g) as [|l ls IH];
    [reflexivity|].
  cbn [map]. rewrite IH. now destruct l.
Qed.

(** X9. Every request that [analyzeBeam] posts after any session carries at
    least two supports, no two of them at the same position and none at a
    negative or [NaN] position, at least one load, and only loads that
    passed the test of [addLoad]; its beam length is the stored one. *)
Theorem posted_request_is_well_formed (actions : list Action)
    (material : Material) (p : Payload.t) :
  analyzeBeam material (session actions) = Posted p ->
  (2 <= List.length (Payload.supports p))%nat /\
  (1 <= List.length (Payload.loads p))%nat /\
  DistinctPositions (Payload.supports p) /\
  Forall (fun s => nonNegative (position s) = true) (Payload.supports p) /\
  Forall (fun l => checkedLoad l = true) (Payload.loads p) /\
  Payload.beamLength p = beamLength (session actions).
Proof.
  intros H. unfold analyzeBeam in H.
  destruct (Nat.ltb_spec (List.length (supports (session actions))) 2)
    as [|H2]; [discriminate|].
  destruct (Nat.eqb_spec (List.length (loads (session actions))) 0)
    as [|H1]; [discriminate|].
  injection H as <-. rewrite payload_supports, payload_loads.
  destruct (session_keeps_apart actions) as (Hs & Hn & Hl).
  repeat split; auto.
  - lia.
  - now apply Separated_DistinctPositions.
Qed.

Lemma posted_request_is_well_formed_witness :
  (2 <= List.length (Payload.supports (payload aluminum (session sampleSession))))%nat /\
  (1 <= List.length (Payload.loads (payload aluminum (session sampleSession))))%nat /\
  DistinctPositions (Payload.supports (payload aluminum (session sampleSession))) /\
  Forall (fun s => nonNegative (position s) = true)
         (Payload.supports (payload aluminum (session sampleSession))) /\
  Forall (fun l => checkedLoad l = true)
         (Payload.loads (payload aluminum (session sampleSession))) /\
  Payload.beamLength (payload aluminum (session sampleSession))
  = beamLength (session sampleSession).
Proof.
  apply (posted_request_is_well_formed sampleSession aluminum
           (payload aluminum (session sampleSession))).
  reflexivity.
Defined.

(** *** Removing by index *)

Lemma splice1_length {A : Type} (index : nat) (l : list A) :
  (index < List.length l)%nat ->
  S (List.length (splice1 index l)) = List.length l.
Proof.
  unfold splice1. revert index.
  induction l as [|a l IH]; intros [|index] H; cbn [List.length] in *;
    cbn [firstn skipn app List.length]; try lia.
  rewrite IH; lia.
Qed.

Lemma splice1_before {A : Type} (index j : nat) (l : list A) :
  (j < index)%nat -> nth_error (splice1 index l) j = nth_error l j.
Proof.
  unfold splice1. revert index j.
  induction l as [|a l IH]; intros [|index] [|j] H;
    cbn [firstn skipn app nth_error]; try lia; try reflexivity.
  apply IH. lia.
Qed.

Lemma splice1_after {A : Type} (index j : nat) (l : list A) :
  (index <= j)%nat -> nth_error (splice1 index l) j = nth_error l (S j).
Proof.
  unfold splice1. revert index j.
  induction l as [|a l IH]; intros index j H.
  - destruct index, j; reflexivity.
  - destruct index as [|index].
    + reflexivity.
    + destruct j as [|j]; [lia|].
      cbn [firstn skipn app nth_error]. apply IH. lia.
Qed.

Lemma removeSupport_deletes_the_indexed_support_aux (index : nat) (g : Globals) :
  (index < List.length (supports g))%nat ->
  S (List.length (supports (fst (removeSupport index g))))
  = List.length (supports g) /\
  snd (removeSupport index g) = Normal tt.
Proof.
  intros H. unfold removeSupport.
  destruct (nth_error (supports g) index) eqn:E.
  - cbn [fst snd supports]. split; [now apply splice1_length|reflexivity].
  - apply nth_error_None in E. lia.
Qed.

(** X10. [removeSupport(index)] at an index of the array ends normally,
    removes the support at that index and no other (the earlier ones keep
    their index, the later ones move down by one), and leaves the loads and
    the beam length alone. *)
Theorem removeSupport_deletes_the_indexed_support (index : nat) (g : Globals) :
  (index < List.length (supports g))%nat ->
  snd (removeSupport index g) = Normal tt /\
  S (List.length (supports (fst (removeSupport index g))))
  = List.length (supports g) /\
  (forall j : nat, (j < index)%nat ->
     nth_error (supports (fst (removeSupport index g))) j
     = nth_error (supports g) j) /\
  (forall j : nat, (index <= j)%nat ->
     nth_error (supports (fst (removeSupport index g))) j
     = nth_error (supports g) (S j)) /\
  loads (fst (removeSupport index g)) = loads g /\
  beamLength (fst (removeSupport index g)) = beamLength g.
Proof.
  intros H. unfold removeSupport.
  destruct (nth_error (supports g) index) eqn:E.
  - cbn [fst snd supports loads beamLength]. repeat split.
    + now apply splice1_length.
    + intros j Hj. now apply splice1_before.
    + intros j Hj. now apply splice1_after.
  - apply nth_error_None in E. lia.
Qed.

Lemma removeSupport_deletes_the_indexed_support_witness :
  snd (removeSupport 0 (session sampleSession)) = Normal tt /\
  S (List.length (supports (fst (removeSupport 0 (session sampleSession)))))
  = List.length (supports (session sampleSession)) /\
  (forall j : nat, (j < 0)%nat ->
     nth_error (supports (fst (removeSupport 0 (session sampleSession)))) j
     = nth_error (supports (session sampleSession)) j) /\
  (forall j : nat, (0 <= j)%nat ->
     nth_error (supports (fst (removeSupport 0 (session sampleSession)))) j
     = nth_error (supports (session sampleSession)) (S j)) /\
  loads (fst (removeSupport 0 (session sampleSession)))
  = loads (session sampleSession) /\
  beamLength (fst (removeSupport 0 (session sampleSession)))
  = beamLength (session sampleSession).
Proof.
  apply (removeSupport_deletes_the_indexed_support 0 (session sampleSession)).
  vm_compute. lia.
Defined.

(** X11. [removeLoad(index)] at an index of the array ends normally, removes
    the load at that index and no other, and leaves the supports and the
    beam length alone. *)
Theorem removeLoad_deletes_the_indexed_load (index : nat) (g : Globals) :
  (index < List.length (loads g))%nat ->
  snd (removeLoad index g) = Normal tt /\
  S (List.length (loads (fst (removeLoad index g))))
  = List.length (loads g) /\
  (forall j : nat, (j < index)%nat ->
     nth_error (loads (fst (removeLoad index g))) j = nth_error (loads g) j) /\
  (forall j : nat, (index <= j)%nat ->
     nth_error (loads (fst (removeLoad index g))) j
     = nth_error (loads g) (S j)) /\
  supports (fst (removeLoad index g)) = supports g /\
  beamLength (fst (removeLoad index g)) = beamLength g.
Proof.
  intros H. unfold removeLoad.
  destruct (nth_error (loads g) index) eqn:E.
  - cbn [fst snd supports loads beamLength]. repeat split.
    + now apply splice1_length.
    + intros j Hj. now apply splice1_before.
    + intros j Hj. now apply splice1_after.
  - apply nth_error_None in E. lia.
Qed.

Lemma removeLoad_deletes_the_indexed_load_witness :
  snd (removeLoad 0 (session sampleSession)) = Normal tt /\
  S (List.length (loads (fst (removeLoad 0 (session sampleSession)))))
  = List.length (loads (session sampleSession)) /\
  (forall j : nat, (j < 0)%nat ->
     nth_error (loads (fst (removeLoad 0 (session sampleSession)))) j
     = nth_error (loads (session sampleSession)) j) /\
  (forall j : nat, (0 <= j)%nat ->
     nth_error (loads (fst (removeLoad 0 (session sampleSession)))) j
     = nth_error (loads (session sampleSession)) (S j)) /\
  supports (fst (removeLoad 0 (session sampleSession)))
  = supports (session sampleSession) /\
  beamLength (fst (removeLoad 0 (session sampleSession)))
  = beamLength (session sampleSession).
Proof.
  apply (removeLoad_deletes_the_indexed_load 0 (session sampleSession)).
  vm_compute. lia.
Defined.



(** X13. When at most two supports are stored, removing one of them makes
    [analyzeBeam] refuse the analysis. *)
Theorem removing_one_of_two_supports_blocks_analysis (index : nat)
    (material : Material) (g : Globals) :
  (index < List.length (supports g))%nat ->
  (List.length (supports g) <= 2)%nat ->
  analyzeBeam material (fst (removeSupport index g))
  = Alert "Please add at least 2 supports!".
Proof.
  intros Hi H2.
  destruct (removeSupport_deletes_the_indexed_support_aux index g Hi) as [L _].
  unfold analyzeBeam.
  destruct (Nat.ltb_spec (List.length (supports (fst (removeSupport index g)))) 2);
    [reflexivity|lia].
Qed.

Lemma removing_one_of_two_supports_blocks_analysis_witness :
  analyzeBeam steel (fst (removeSupport 1 (session sampleSession)))
  = Alert "Please add at least 2 supports!".
Proof.
  apply (removing_one_of_two_supports_blocks_analysis 1 steel
           (session sampleSession)); vm_compute; lia.
Defined.

(** *** Entering a support where one stands *)

Lemma apart_sym (a b : number) : apart a b = apart b a.
Proof.
  unfold apart. destruct a as [x| | |], b as [y| | |]; try reflexivity.
  cbn [sub neg add abs]. unfold gtb. cbn [compare].
  assert (E : (Qabs (x + - y) == Qabs (y + - x))%Q).
  { rewrite <- (Qabs_opp (x + - y)).
    assert (D : (- (x + - y) == y + - x)%Q) by ring. now rewrite D. }
  now rewrite E.
Qed.

Lemma apart_same (a b c : number) :
  sameb b c = true -> apart a b = apart a c.
Proof.
  unfold apart.
  destruct a as [x| | |], b as [y| | |], c as [z| | |];
    try reflexivity; try discriminate.
  cbn [sameb sub neg add abs]. intros H. apply Qeq_bool_iff in H.
  unfold gtb. cbn [compare]. now rewrite H.
Qed.

Lemma filter_all {A : Type} (f : A -> bool) (l : list A) :
  Forall (fun a => f a = true) l -> filter f l = l.
Proof.
  induction 1 as [|a l Ha Hl IH]; [reflexivity|].
  cbn [filter]. now rewrite Ha, IH.
Qed.

(** On supports that are apart from one another, the filter of line 150
    drops the support that stands at the entered position and no other. *)
Lemma filter_drops_the_occupant (p : number) (l : list Support) (k : nat)
    (s : Support) :
  Separated l ->
  nth_error l k = Some s ->
  sameb (position s) p = true ->
  filter (fun t => apart (position t) p) l = splice1 k l.
Proof.
  unfold Separated. intros H. revert k.
  induction H as [|a l Ha Hl IH]; intros k Hk Hp.
  - destruct k; discriminate.
  - destruct k as [|k]; cbn [nth_error] in Hk.
    + injection Hk as ->. cbn [filter].
      assert (F : apart (position s) p = false).
      { destruct (apart (position s) p) eqn:E; [|reflexivity].
        apply apart_not_same in E. congruence. }
      rewrite F. unfold splice1. cbn [firstn skipn app].
      apply filter_all. rewrite Forall_forall in *. intros t Ht.
      rewrite <- (apart_same _ _ _ Hp), apart_sym. now apply Ha.
    + cbn [filter].
      assert (T : apart (position a) p = true).
      { rewrite <- (apart_same _ _ _ Hp). rewrite Forall_forall in Ha.
        apply Ha. eapply nth_error_In; exact Hk. }
      rewrite T. change (splice1 (S k) (a :: l)) with (a :: splice1 k l).
      f_equal. now apply IH.
Qed.

(** X14. After any session, entering a support at the position of a stored
    one (and within the beam) replaces it: the stored support is removed,
    the others keep their order, and the new support, with the type just
    chosen, comes last. *)
Theorem support_at_occupied_position_replaces (actions : list Action)
    (position : number) (type : string) (k : nat) (s : Support) :
  isNaN position || (position <? Fin 0)
    || (position >? beamLength (session actions)) = false ->
  nth_error (supports (session actions)) k = Some s ->
  sameb (Engine.position s) position = true ->
  addSupport position type (session actions)
  = ({| beamLength := beamLength (session actions);
        supports := splice1 k (supports (session actions))
                    ++ [ {| Engine.position := position; Engine.type := type |} ];
        loads := loads (session actions) |}, Done).
Proof.
  intros G Hk Hp. unfold addSupport. rewrite G.
  destruct (session_keeps_apart actions) as (Hs & _ & _).
  pose proof (filter_drops_the_occupant position _ k s Hs Hk Hp) as F.
  unfold apart in F. now rewrite F.
Qed.

Lemma support_at_occupied_position_replaces_witness :
  addSupport (Fin (820 # 100)) "fixed"
             (session (sampleSession ++ [AddSupport (Fin (82 # 10)) "pin"]))
  = ({| beamLength := beamLength (session (sampleSession ++ [AddSupport (Fin (82 # 10)) "pin"]));
        supports :=
          splice1 2 (supports (session (sampleSession ++ [AddSupport (Fin (82 # 10)) "pin"])))
          ++ [ {| Engine.position := Fin (820 # 100); Engine.type := "fixed" |} ];
        loads := loads (session (sampleSession ++ [AddSupport (Fin (82 # 10)) "pin"])) |},
     Done).
Proof.
  apply (support_at_occupied_position_replaces
           (sampleSession ++ [AddSupport (Fin (82 # 10)) "pin"])
           (Fin (820 # 100)) "fixed" 2
           {| Engine.position := Fin (82 # 10); Engine.type := "pin" |});
    reflexivity.
Defined.

End EngineSessionFacts.

(* ================================================================== *)
(** ** [BeamAnalyzer.jsx]: the handlers that edit the component state *)
(* ================================================================== *)

Module Editor.
Import BeamAnalyzer.
Local Open Scope js_scope.

(** The elements of the [supports] and [loads] state arrays with their
    [id].  Every load of the component has the type ['concentrated']: the
    initial load and [addLoad] set it, and no handler changes it. *)
Module SupportEntry.
Record t : Type := {
  id : Z;
  position : number;
  type : SupportType
}.
End SupportEntry.

Module LoadEntry.
Record t : Type := {
  id : Z;
  position : number;
  magnitude : number
}.
End LoadEntry.

(** The state that the handlers edit. *)
Record Component : Type := {
  beamLength : number;
  supports : list SupportEntry.t;
  loads : list LoadEntry.t
}.

(** Lines 15-22. *)
Definition initialComponent : Component :=
  {| beamLength := of_Z 10;
     supports :=
       [ {| SupportEntry.id := 1; SupportEntry.position := of_Z 2;
            SupportEntry.type := pin |};
         {| SupportEntry.id := 2; SupportEntry.position := of_Z 8;
            SupportEntry.type := roller |} ];
     loads :=
       [ {| LoadEntry.id := 1; LoadEntry.position := of_Z 5;
            LoadEntry.magnitude := of_Z 50 |} ] |}.

(** [parsed || fallback] on numbers: the fallback replaces [NaN] and 0. *)
Definition orElse (parsed fallback : number) : number :=
  match js_or (VNum parsed) (VNum fallback) with
  | VNum n => n
  | _ => fallback
  end.

(** Line 408: [setBeamLength(parseFloat(e.target.value) || 10)]. *)
Definition changeLength (parsed : number) (c : Component) : Component :=
  {| beamLength := orElse parsed (of_Z 10);
     supports := supports c; loads := loads c |}.

(** Lines 327-334; [now] is the value of [Date.now()]. *)
Definition addSupport (now : Z) (c : Component) : Component :=
  {| beamLength := beamLength c;
     supports :=
       supports c
       ++ [ {| SupportEntry.id := now;
               SupportEntry.position := beamLength c / Fin 2;
               SupportEntry.type := pin |} ];
     loads := loads c |}.

(** Lines 336-344. *)
Definition addLoad (now : Z) (c : Component) : Component :=
  {| beamLength := beamLength c;
     supports := supports c;
     loads :=
       loads c
       ++ [ {| LoadEntry.id := now;
               LoadEntry.position := beamLength c / Fin 2;
               LoadEntry.magnitude := of_Z 50 |} ] |}.

(** Lines 346-348. *)
Definition removeSupport (id : Z) (c : Component) : Component :=
  {| beamLength := beamLength c;
     supports := filter (fun s => negb (SupportEntry.id s =? id)%Z) (supports c);
     loads := loads c |}.

(** Lines 350-352. *)
Definition removeLoad (id : Z) (c : Component) : Component :=
  {| beamLength := beamLength c;
     supports := supports c;
     loads := filter (fun l => negb (LoadEntry.id l =? id)%Z) (loads c) |}.

(** The [field] and [value] of [updateSupport]: the position input and the
    type select are its only callers. *)
Inductive SupportField : Type :=
| supportPosition (value : number)
| supportType (value : SupportType).

(** The [field] and [value] of [updateLoad]. *)
Inductive LoadField : Type :=
| loadPosition (value : number)
| loadMagnitude (value : number).

(** [{ ...s, [field]: value }] *)
Definition withSupportField (f : SupportField) (s : SupportEntry.t)
  : SupportEntry.t :=
  match f with
  | supportPosition v =>
      {| SupportEntry.id := SupportEntry.id s; SupportEntry.position := v;
         SupportEntry.type := SupportEntry.type s |}
  | supportType v =>
      {| SupportEntry.id := SupportEntry.id s;
         SupportEntry.position := SupportEntry.position s;
         SupportEntry.type := v |}
  end.

Definition withLoadField (f : LoadField) (l : LoadEntry.t) : LoadEntry.t :=
  match f with
  | loadPosition v =>
      {| LoadEntry.id := LoadEntry.id l; LoadEntry.position := v;
         LoadEntry.magnitude := LoadEntry.magnitude l |}
  | loadMagnitude v =>
      {| LoadEntry.id := LoadEntry.id l;
         LoadEntry.position := LoadEntry.position l;
         LoadEntry.magnitude := v |}
  end.

(** Lines 354-358. *)
Definition updateSupport (id : Z) (f : SupportField) (c : Component)
  : Component :=
  {| beamLength := beamLength c;
     supports :=
       map (fun s => if (SupportEntry.id s =? id)%Z
                     then withSupportField f s else s) (supports c);
     loads := loads c |}.

(** Lines 360-364. *)
Definition updateLoad (id : Z) (f : LoadField) (c : Component) : Component :=
  {| beamLength := beamLength c;
     supports := supports c;
     loads :=
       map (fun l => if (LoadEntry.id l =? id)%Z
                     then withLoadField f l else l) (loads c) |}.

(** The events of the control panel; a number is what [parseFloat] returned
    for the text of the input. *)
Inductive Event : Type :=
| LengthInput (parsed : number)
| AddSupportClick (now : Z)
| AddLoadClick (now : Z)
| RemoveSupportClick (id : Z)
| RemoveLoadClick (id : Z)
| SupportPositionInput (id : Z) (parsed : number)
| SupportTypeSelect (id : Z) (type : SupportType)
| LoadPositionInput (id : Z) (parsed : number)
| LoadMagnitudeInput (id : Z) (parsed : number).

(** The handler that the control panel binds to each event (lines 403-519). *)
Definition handle (c : Component) (e : Event) : Component :=
  match e with
  | LengthInput parsed => changeLength parsed c
  | AddSupportClick now => addSupport now c
  | AddLoadClick now => addLoad now c
  | RemoveSupportClick id => removeSupport id c
  | RemoveLoadClick id => removeLoad id c
  | SupportPositionInput id parsed =>
      updateSupport id (supportPosition (orElse parsed (Fin 0))) c
  | SupportTypeSelect id type => updateSupport id (supportType type) c
  | LoadPositionInput id parsed =>
      updateLoad id (loadPosition (orElse parsed (Fin 0))) c
  | LoadMagnitudeInput id parsed =>
      updateLoad id (loadMagnitude (orElse parsed (Fin 0))) c
  end.

Definition edited (events : list Event) : Component :=
  fold_left handle events initialComponent.

(** The arguments that the analysis reads from the state. *)
Definition analysisSupports (c : Component) : list Support :=
  map (fun s => {| position := SupportEntry.position s;
                   type := SupportEntry.type s |}) (supports c).

Definition analysisLoads (c : Component) : list Load :=
  map (fun l => concentrated (LoadEntry.position l) (LoadEntry.magnitude l))
      (loads c).

(** The analysis of the component in the state [c]. *)
Definition analysis {RT : Runtime} (st : State) (c : Component)
  : State * completion (list Sample) :=
  analyzeBeam st (beamLength c) (analysisSupports c) (analysisLoads c).

(** No number of the state is [NaN], and the beam length is not 0. *)
Definition NoNaN (c : Component) : Prop :=
  isNaN (beamLength c) = false /\
  sameb (beamLength c) (Fin 0) = false /\
  Forall (fun s => isNaN (SupportEntry.position s) = false) (supports c) /\
  Forall (fun l => isNaN (LoadEntry.position l) = false
                   /\ isNaN (LoadEntry.magnitude l) = false) (loads c).

End Editor.

Section EditorFacts.
Import BeamAnalyzer Inputs Editor.
Local Open Scope js_scope.

Lemma orElse_not_NaN (parsed fallback : number) :
  isNaN fallback = false -> isNaN (orElse parsed fallback) = false.
Proof.
  intros H. unfold orElse, js_or. destruct parsed as [q| | |]; cbn [ToBoolean];
    try reflexivity; try exact H.
  destruct (negb (Qeq_bool q 0)); [reflexivity|exact H].
Qed.

Lemma orElse_not_zero (parsed fallback : number) :
  sameb fallback (Fin 0) = false -> sameb (orElse parsed fallback) (Fin 0) = false.
Proof.
  intros H. unfold orElse, js_or. destruct parsed as [q| | |]; cbn [ToBoolean];
    try reflexivity; try exact H.
  destruct (Qeq_bool q 0) eqn:E; cbn [negb]; [exact H|exact E].
Qed.

Lemma half_not_NaN (a : number) : isNaN a = false -> isNaN (a / Fin 2) = false.
Proof. destruct a; try discriminate; reflexivity. Qed.

Lemma handle_keeps_NoNaN (c : Component) (e : Event) :
  NoNaN c -> NoNaN (handle c e).
Proof.
  intros (HL & HZ & HS & HLo).
  destruct e as [p|now|now|i|i|i p|i ty|i p|i p]; cbn [handle];
    unfold NoNaN; cbn [changeLength addSupport addLoad removeSupport removeLoad
                       updateSupport updateLoad beamLength supports loads].
  - repeat split; auto.
    + now apply orElse_not_NaN.
    + now apply orElse_not_zero.
  - repeat split; auto. apply Forall_app. split; [exact HS|].
    constructor; [|constructor]. cbn. now apply half_not_NaN.
  - repeat split; auto. apply Forall_app. split; [exact HLo|].
    constructor; [|constructor]. cbn. split; [now apply half_not_NaN|reflexivity].
  - repeat split; auto. now apply Forall_filter.
  - repeat split; auto. now apply Forall_filter.
  - repeat split; auto. rewrite Forall_map. eapply Forall_impl; [|exact HS].
    intros s Hs. cbn beta. destruct (SupportEntry.id s =? i)%Z; [|exact Hs].
    cbn. now apply orElse_not_NaN.
  - repeat split; auto. rewrite Forall_map. eapply Forall_impl; [|exact HS].
    intros s Hs. cbn beta. now destruct (SupportEntry.id s =? i)%Z.
  - repeat split; auto. rewrite Forall_map. eapply Forall_impl; [|exact HLo].
    intros l [Hp Hm]. cbn beta. destruct (LoadEntry.id l =? i)%Z; [|now split].
    cbn. split; [now apply orElse_not_NaN|exact Hm].
  - repeat split; auto. rewrite Forall_map. eapply Forall_impl; [|exact HLo].
    intros l [Hp Hm]. cbn beta. destruct (LoadEntry.id l =? i)%Z; [|now split].
    cbn. split; [exact Hp|now apply orElse_not_NaN].
Qed.

(** X15. Whatever is typed or clicked in the control panel, the state holds
    no [NaN]: the beam length is a number other than 0, and every support
    position, load position and load magnitude is a number (an empty or
    malformed field counts as 10 for the length and as 0 elsewhere). *)
Theorem editing_never_stores_NaN (events : list Event) :
  isNaN (beamLength (edited events)) = false /\
  sameb (beamLength (edited events)) (Fin 0) = false /\
  Forall (fun s => isNaN (SupportEntry.position s) = false)
         (supports (edited events)) /\
  Forall (fun l => isNaN (LoadEntry.position l) = false
                   /\ isNaN (LoadEntry.magnitude l) = false)
         (loads (edited events)).
Proof.
  change (NoNaN (edited events)). unfold edited.
  assert (H0 : NoNaN initialComponent).
  { repeat split; repeat constructor. }
  revert H0. generalize initialComponent as c.
  induction events as [|e events IH]; intros c Hc; cbn [fold_left].
  - exact Hc.
  - apply IH. now apply handle_keeps_NoNaN.
Qed.

(** X16. While the component has two supports or more, the button that adds
    a support changes nothing in the analysis (reactions published, outcome
    of the callback): the new support goes to the end of the array and the
    analysis reads the first two. *)
Theorem added_support_leaves_analysis_unchanged (RT : Runtime) (st : State)
    (now : Z) (c : Component) :
  (2 <= List.length (supports c))%nat ->
  analysis st (addSupport now c) = analysis st c.
Proof.
  intros H. unfold analysis, analysisSupports.
  cbn [addSupport beamLength supports loads analysisLoads].
  destruct (supports c) as [|s1 [|s2 rest]]; cbn [List.length] in H; try lia.
  reflexivity.
Qed.

Lemma added_support_leaves_analysis_unchanged_witness :
  @analysis plainRuntime initialState (addSupport 1700000000000 initialComponent)
  = @analysis plainRuntime initialState initialComponent.
Proof.
  apply (added_support_leaves_analysis_unchanged plainRuntime initialState
           1700000000000 initialComponent).
  simpl. lia.
Defined.





(** X18. Two supports added at the same reading of the clock carry the same
    id: the button that removes one of them removes both, together with
    every other support of that id. *)
Theorem same_clock_supports_are_removed_together (now : Z) (c : Component) :
  removeSupport now (addSupport now (addSupport now c)) = removeSupport now c.
Proof.
  unfold removeSupport, addSupport. cbn [beamLength supports loads].
  rewrite !filter_app. cbn [filter SupportEntry.id].
  rewrite Z.eqb_refl. cbn [negb]. now rewrite !app_nil_r.
Qed.

End EditorFacts.

(* ================================================================== *)
(** ** The algebra of the reaction solver *)
(* ================================================================== *)

Module Statics.
Import BeamAnalyzer.
Local Open Scope Q_scope.

(** The rational value of a finite number (0 for the others). *)
Definition rational (a : number) : Q :=
  match a with
  | Fin q => q
  | _ => 0
  end.

(** The sum of the magnitudes of the concentrated loads, and the sum of
    their moments about the position [a]. *)
Fixpoint magnitudes (loads : list Load) : Q :=
  match loads with
  | [] => 0
  | concentrated _ m :: rest => rational m + magnitudes rest
  | distributed _ _ _ _ :: rest => magnitudes rest
  end.

Fixpoint moments (a : Q) (loads : list Load) : Q :=
  match loads with
  | [] => 0
  | concentrated p m :: rest => rational m * (rational p - a) + moments a rest
  | distributed _ _ _ _ :: rest => moments a rest
  end.

(** The same beam moved by [c] along its axis. *)
Definition shiftSupport (c : Q) (s : Support) : Support :=
  {| position := (position s + Fin c)%js; type := type s |}.

Definition shiftLoad (c : Q) (l : Load) : Load :=
  match l with
  | concentrated p m => concentrated (p + Fin c)%js m
  | distributed a b w1 w2 => distributed (a + Fin c)%js (b + Fin c)%js w1 w2
  end.

(** A load that the sweep has not reached at [x]: a concentrated load that
    stands after [x], or a load of another type. *)
Definition standsAfter (x : number) (l : Load) : bool :=
  match l with
  | concentrated p _ => (x <? p)%js
  | distributed _ _ _ _ => true
  end.

End Statics.

Section StaticsFacts.
Import BeamAnalyzer Spec Inputs Statics.
Import Permutation.
Local Open Scope js_scope.

Lemma sumLoads_fold_rational (a : Q) (s1 : Support) (loads : list Load) :
  position s1 = Fin a ->
  forallb finiteLoad loads = true ->
  forall t m : Q, exists t' m' : Q,
    fold_left (accumulateLoad s1) loads (Fin t, Fin m) = (Fin t', Fin m') /\
    (t' == t + magnitudes loads)%Q /\
    (m' == m + moments a loads)%Q.
Proof.
  intros Ha. induction loads as [|l loads IH]; intros Hf t m.
  - exists t, m. cbn. repeat split; ring.
  - cbn [forallb] in Hf. apply andb_prop in Hf as [Hl Hf].
    destruct l as [p mg|]; cbn [fold_left accumulateLoad magnitudes moments].
    + cbn [finiteLoad] in Hl. apply andb_prop in Hl as [Hp Hm].
      apply isFinite_Fin in Hp as [p' ->]. apply isFinite_Fin in Hm as [g ->].
      rewrite Ha. cbn [add sub neg mul rational].
      destruct (IH Hf (t + g)%Q (m + g * (p' + - a))%Q) as (t' & m' & E & Ht & Hm).
      exists t', m'. split; [exact E|]. split; [rewrite Ht|rewrite Hm]; ring.
    + apply IH, Hf.
Qed.

(** With finite data and distinct supports the reactions are the rational
    ones of statics. *)
Lemma solveReactions_rational (s1 s2 : Support) (loads : list Load) (p1 p2 : Q) :
  position s1 = Fin p1 -> position s2 = Fin p2 -> ~ (p1 == p2)%Q ->
  forallb finiteLoad loads = true ->
  exists r1 r2 : Q,
    solveReactions s1 s2 loads = (Fin r1, Fin r2) /\
    (r2 == moments p1 loads / (p2 - p1))%Q /\
    (r1 == magnitudes loads - r2)%Q.
Proof.
  intros E1 E2 Hne Hf.
  destruct (sumLoads_fold_rational p1 s1 loads E1 Hf 0 0) as (t & m & Hs & Ht & Hm).
  fold (sumLoads s1 loads) in Hs.
  rewrite (solveReactions_finite s1 s2 loads p1 p2 t m E1 E2 Hne Hs).
  eexists. eexists. split; [reflexivity|].
  assert (D : ~ (p2 - p1 == 0)%Q) by (intros D; apply Hne; lra).
  split.
  - rewrite Hm. field. intros D'. apply D. lra.
  - rewrite Ht, Hm. field. intros D'. apply D. lra.
Qed.

Lemma finite_distinct (s1 s2 : Support) :
  isFinite (position s1) = true ->
  isFinite (position s2) = true ->
  sameb (position s1) (position s2) = false ->
  exists p1 p2 : Q,
    position s1 = Fin p1 /\ position s2 = Fin p2 /\ ~ (p1 == p2)%Q.
Proof.
  intros F1 F2 Hd.
  apply isFinite_Fin in F1 as [p1 E1]. apply isFinite_Fin in F2 as [p2 E2].
  exists p1, p2. repeat split; auto.
  intros He. rewrite E1, E2 in Hd. cbn [sameb] in Hd.
  apply Qeq_bool_iff in He. congruence.
Qed.

Lemma magnitudes_app (l1 l2 : list Load) :
  (magnitudes (l1 ++ l2) == magnitudes l1 + magnitudes l2)%Q.
Proof.
  induction l1 as [|l l1 IH]; cbn [app magnitudes]; [ring|].
  destruct l; rewrite IH; ring.
Qed.

Lemma moments_app (a : Q) (l1 l2 : list Load) :
  (moments a (l1 ++ l2) == moments a l1 + moments a l2)%Q.
Proof.
  induction l1 as [|l l1 IH]; cbn [app moments]; [ring|].
  destruct l; rewrite IH; ring.
Qed.

Lemma moments_origin (a b : Q) (loads : list Load) :
  (moments b loads == moments a loads - (b - a) * magnitudes loads)%Q.
Proof.
  induction loads as [|l loads IH]; cbn [moments magnitudes]; [ring|].
  destruct l; rewrite IH; ring.
Qed.

Lemma forallb_finiteLoad_app (l1 l2 : list Load) :
  forallb finiteLoad l1 = true -> forallb finiteLoad l2 = true ->
  forallb finiteLoad (l1 ++ l2) = true.
Proof. intros H1 H2. rewrite forallb_app. now rewrite H1, H2. Qed.

(** X19. Superposition: for two supports at distinct finite positions and
    finite concentrated loads, each reaction under the loads of two lists
    together is the sum of that reaction under each list alone. *)
Theorem reactions_superpose (s1 s2 : Support) (l1 l2 : list Load) :
  isFinite (position s1) = true ->
  isFinite (position s2) = true ->
  sameb (position s1) (position s2) = false ->
  forallb finiteLoad l1 = true ->
  forallb finiteLoad l2 = true ->
  fst (solveReactions s1 s2 (l1 ++ l2))
  ≈ fst (solveReactions s1 s2 l1) + fst (solveReactions s1 s2 l2) /\
  snd (solveReactions s1 s2 (l1 ++ l2))
  ≈ snd (solveReactions s1 s2 l1) + snd (solveReactions s1 s2 l2).
Proof.
  intros F1 F2 Hd H1 H2.
  destruct (finite_distinct s1 s2 F1 F2 Hd) as (p1 & p2 & E1 & E2 & Hne).
  destruct (solveReactions_rational s1 s2 l1 p1 p2 E1 E2 Hne H1)
    as (a1 & a2 & -> & Ha2 & Ha1).
  destruct (solveReactions_rational s1 s2 l2 p1 p2 E1 E2 Hne H2)
    as (b1 & b2 & -> & Hb2 & Hb1).
  destruct (solveReactions_rational s1 s2 (l1 ++ l2) p1 p2 E1 E2 Hne
              (forallb_finiteLoad_app l1 l2 H1 H2))
    as (c1 & c2 & -> & Hc2 & Hc1).
  cbn [fst snd add same].
  assert (D : ~ (p2 - p1 == 0)%Q) by (intros D; apply Hne; lra).
  assert (C2 : (c2 == a2 + b2)%Q).
  { rewrite Hc2, Ha2, Hb2, moments_app. now field. }
  split; [|exact C2].
  rewrite Hc1, Ha1, Hb1, C2, magnitudes_app. ring.
Qed.

Lemma reactions_superpose_witness :
  fst (solveReactions pinAt2 rollerAt8 (defaultLoads ++ scenarioLoads))
  ≈ fst (solveReactions pinAt2 rollerAt8 defaultLoads)
    + fst (solveReactions pinAt2 rollerAt8 scenarioLoads) /\
  snd (solveReactions pinAt2 rollerAt8 (defaultLoads ++ scenarioLoads))
  ≈ snd (solveReactions pinAt2 rollerAt8 defaultLoads)
    + snd (solveReactions pinAt2 rollerAt8 scenarioLoads).
Proof.
  apply (reactions_superpose pinAt2 rollerAt8 defaultLoads scenarioLoads);
    reflexivity.
Defined.

(** X20. The reactions belong to the supports and not to their order: for
    two supports at distinct finite positions and finite concentrated loads,
    giving the supports in the other order gives the same two reactions,
    exchanged. *)
Theorem swapped_supports_swap_reactions (s1 s2 : Support) (loads : list Load) :
  isFinite (position s1) = true ->
  isFinite (position s2) = true ->
  sameb (position s1) (position s2) = false ->
  forallb finiteLoad loads = true ->
  fst (solveReactions s2 s1 loads) ≈ snd (solveReactions s1 s2 loads) /\
  snd (solveReactions s2 s1 loads) ≈ fst (solveReactions s1 s2 loads).
Proof.
  intros F1 F2 Hd Hf.
  destruct (finite_distinct s1 s2 F1 F2 Hd) as (p1 & p2 & E1 & E2 & Hne).
  assert (Hne' : ~ (p2 == p1)%Q) by (intros H; apply Hne; now symmetry).
  destruct (solveReactions_rational s1 s2 loads p1 p2 E1 E2 Hne Hf)
    as (a1 & a2 & -> & Ha2 & Ha1).
  destruct (solveReactions_rational s2 s1 loads p2 p1 E2 E1 Hne' Hf)
    as (b1 & b2 & -> & Hb2 & Hb1).
  cbn [fst snd same].
  assert (D : ~ (p2 - p1 == 0)%Q) by (intros D; apply Hne; lra).
  assert (D' : ~ (p1 - p2 == 0)%Q) by (intros D'; apply Hne; lra).
  assert (B2 : (b2 == magnitudes loads - a2)%Q).
  { rewrite Hb2, Ha2, (moments_origin p1 p2). now field. }
  split.
  - rewrite Hb1, B2. ring.
  - rewrite B2, Ha1. ring.
Qed.

Lemma swapped_supports_swap_reactions_witness :
  fst (solveReactions rollerAt8 pinAt2 scenarioLoads)
  ≈ snd (solveReactions pinAt2 rollerAt8 scenarioLoads) /\
  snd (solveReactions rollerAt8 pinAt2 scenarioLoads)
  ≈ fst (solveReactions pinAt2 rollerAt8 scenarioLoads).
Proof.
  apply (swapped_supports_swap_reactions pinAt2 rollerAt8 scenarioLoads);
    reflexivity.
Defined.

Lemma finiteLoad_shift (c : Q) (l : Load) :
  finiteLoad (shiftLoad c l) = finiteLoad l.
Proof. destruct l as [p m|]; [|reflexivity]. now destruct p. Qed.

Lemma forallb_finiteLoad_shift (c : Q) (loads : list Load) :
  forallb finiteLoad (map (shiftLoad c) loads) = forallb finiteLoad loads.
Proof.
  induction loads as [|l loads IH]; [reflexivity|].
  cbn [map forallb]. now rewrite finiteLoad_shift, IH.
Qed.

Lemma magnitudes_shift (c : Q) (loads : list Load) :
  magnitudes (map (shiftLoad c) loads) = magnitudes loads.
Proof.
  induction loads as [|l loads IH]; [reflexivity|].
  destruct l; cbn [map shiftLoad magnitudes]; now rewrite IH.
Qed.

Lemma moments_shift (a c : Q) (loads : list Load) :
  forallb finiteLoad loads = true ->
  (moments (a + c) (map (shiftLoad c) loads) == moments a loads)%Q.
Proof.
  induction loads as [|l loads IH]; intros Hf; [reflexivity|].
  cbn [forallb] in Hf. apply andb_prop in Hf as [Hl Hf].
  destruct l as [p m|]; cbn [map shiftLoad moments]; [|now apply IH].
  cbn [finiteLoad] in Hl. apply andb_prop in Hl as [Hp _].
  apply isFinite_Fin in Hp as [p' ->]. cbn [add rational].
  rewrite (IH Hf). ring.
Qed.

(** X21. The reactions do not depend on where the origin of the axis is:
    for two supports at distinct finite positions and finite concentrated
    loads, moving every support and every load by the same finite amount
    leaves both reactions as they are. *)
Theorem reactions_ignore_the_origin (c : Q) (s1 s2 : Support)
    (loads : list Load) :
  isFinite (position s1) = true ->
  isFinite (position s2) = true ->
  sameb (position s1) (position s2) = false ->
  forallb finiteLoad loads = true ->
  fst (solveReactions (shiftSupport c s1) (shiftSupport c s2)
                      (map (shiftLoad c) loads))
  ≈ fst (solveReactions s1 s2 loads) /\
  snd (solveReactions (shiftSupport c s1) (shiftSupport c s2)
                      (map (shiftLoad c) loads))
  ≈ snd (solveReactions s1 s2 loads).
Proof.
  intros F1 F2 Hd Hf.
  destruct (finite_distinct s1 s2 F1 F2 Hd) as (p1 & p2 & E1 & E2 & Hne).
  assert (S1 : position (shiftSupport c s1) = Fin (p1 + c)).
  { cbn [shiftSupport position]. now rewrite E1. }
  assert (S2 : position (shiftSupport c s2) = Fin (p2 + c)).
  { cbn [shiftSupport position]. now rewrite E2. }
  assert (Hne' : ~ (p1 + c == p2 + c)%Q) by (intros H; apply Hne; lra).
  assert (Hf' : forallb finiteLoad (map (shiftLoad c) loads) = true)
    by now rewrite forallb_finiteLoad_shift.
  destruct (solveReactions_rational s1 s2 loads p1 p2 E1 E2 Hne Hf)
    as (a1 & a2 & -> & Ha2 & Ha1).
  destruct (solveReactions_rational _ _ _ (p1 + c) (p2 + c) S1 S2 Hne' Hf')
    as (b1 & b2 & -> & Hb2 & Hb1).
  cbn [fst snd same].
  assert (D : ~ (p2 - p1 == 0)%Q) by (intros D; apply Hne; lra).
  assert (B2 : (b2 == a2)%Q).
  { rewrite Hb2, Ha2, (moments_shift p1 c loads Hf).
    field; repeat split; intros D'; apply D; lra. }
  split; [|exact B2].
  rewrite Hb1, Ha1, B2, magnitudes_shift. reflexivity.
Qed.

Lemma reactions_ignore_the_origin_witness :
  fst (solveReactions (shiftSupport (7 # 2) pinAt2) (shiftSupport (7 # 2) rollerAt8)
                      (map (shiftLoad (7 # 2)) scenarioLoads))
  ≈ fst (solveReactions pinAt2 rollerAt8 scenarioLoads) /\
  snd (solveReactions (shiftSupport (7 # 2) pinAt2) (shiftSupport (7 # 2) rollerAt8)
                      (map (shiftLoad (7 # 2)) scenarioLoads))
  ≈ snd (solveReactions pinAt2 rollerAt8 scenarioLoads).
Proof.
  apply (reactions_ignore_the_origin (7 # 2) pinAt2 rollerAt8 scenarioLoads);
    reflexivity.
Defined.

Lemma magnitudes_Permutation (l l' : list Load) :
  Permutation l l' -> (magnitudes l == magnitudes l')%Q.
Proof.
  induction 1 as [|a l l' _ IH|a b l|l l' l'' _ IH1 _ IH2].
  - reflexivity.
  - destruct a; cbn [magnitudes]; now rewrite IH.
  - destruct a, b; cbn [magnitudes]; ring.
  - now rewrite IH1.
Qed.

Lemma moments_Permutation (a : Q) (l l' : list Load) :
  Permutation l l' -> (moments a l == moments a l')%Q.
Proof.
  induction 1 as [|x l l' _ IH|x y l|l l' l'' _ IH1 _ IH2].
  - reflexivity.
  - destruct x; cbn [moments]; now rewrite IH.
  - destruct x, y; cbn [moments]; ring.
  - now rewrite IH1.
Qed.

Lemma forallb_finiteLoad_Permutation (l l' : list Load) :
  Permutation l l' ->
  forallb finiteLoad l = true -> forallb finiteLoad l' = true.
Proof.
  intros P H. rewrite forallb_forall in *. intros x Hx. apply H.
  eapply Permutation_in; [apply Permutation_sym; exact P|exact Hx].
Qed.

(** X22. The reactions do not depend on the order of the loads: for two
    supports at distinct finite positions and finite concentrated loads,
    the same loads in another order give the same two reactions. *)
Theorem reactions_ignore_the_order_of_loads (s1 s2 : Support)
    (loads loads' : list Load) :
  isFinite (position s1) = true ->
  isFinite (position s2) = true ->
  sameb (position s1) (position s2) = false ->
  forallb finiteLoad loads = true ->
  Permutation loads loads' ->
  fst (solveReactions s1 s2 loads') ≈ fst (solveReactions s1 s2 loads) /\
  snd (solveReactions s1 s2 loads') ≈ snd (solveReactions s1 s2 loads).
Proof.
  intros F1 F2 Hd Hf P.
  destruct (finite_distinct s1 s2 F1 F2 Hd) as (p1 & p2 & E1 & E2 & Hne).
  destruct (solveReactions_rational s1 s2 loads p1 p2 E1 E2 Hne Hf)
    as (a1 & a2 & -> & Ha2 & Ha1).
  destruct (solveReactions_rational s1 s2 loads' p1 p2 E1 E2 Hne
              (forallb_finiteLoad_Permutation loads loads' P Hf))
    as (b1 & b2 & -> & Hb2 & Hb1).
  cbn [fst snd same].
  assert (B2 : (b2 == a2)%Q).
  { rewrite Hb2, Ha2, (moments_Permutation p1 loads loads' P). reflexivity. }
  split; [|exact B2].
  rewrite Hb1, Ha1, B2, (magnitudes_Permutation loads loads' P). reflexivity.
Qed.

Lemma reactions_ignore_the_order_of_loads_witness :
  fst (solveReactions pinAt2 rollerAt8 (rev scenarioLoads))
  ≈ fst (solveReactions pinAt2 rollerAt8 scenarioLoads) /\
  snd (solveReactions pinAt2 rollerAt8 (rev scenarioLoads))
  ≈ snd (solveReactions pinAt2 rollerAt8 scenarioLoads).
Proof.
  apply (reactions_ignore_the_order_of_loads pinAt2 rollerAt8 scenarioLoads
           (rev scenarioLoads)); try reflexivity.
  apply Permutation_rev.
Defined.

(** X23. A finite load that stands on a support goes into the reaction of
    that support alone: added at the position of the first support it
    raises [R1] by its magnitude and leaves [R2], added at the position of
    the second support it raises [R2] and leaves [R1]. *)
Theorem load_on_a_support_is_carried_by_it (s1 s2 : Support)
    (loads : list Load) (m : Q) :
  isFinite (position s1) = true ->
  isFinite (position s2) = true ->
  sameb (position s1) (position s2) = false ->
  forallb finiteLoad loads = true ->
  (fst (solveReactions s1 s2 (loads ++ [concentrated (position s1) (Fin m)]))
   ≈ fst (solveReactions s1 s2 loads) + Fin m /\
   snd (solveReactions s1 s2 (loads ++ [concentrated (position s1) (Fin m)]))
   ≈ snd (solveReactions s1 s2 loads)) /\
  (fst (solveReactions s1 s2 (loads ++ [concentrated (position s2) (Fin m)]))
   ≈ fst (solveReactions s1 s2 loads) /\
   snd (solveReactions s1 s2 (loads ++ [concentrated (position s2) (Fin m)]))
   ≈ snd (solveReactions s1 s2 loads) + Fin m).
Proof.
  intros F1 F2 Hd Hf.
  destruct (finite_distinct s1 s2 F1 F2 Hd) as (p1 & p2 & E1 & E2 & Hne).
  assert (G1 : forallb finiteLoad (loads ++ [concentrated (position s1) (Fin m)]) = true).
  { apply forallb_finiteLoad_app; [exact Hf|]. now rewrite E1. }
  assert (G2 : forallb finiteLoad (loads ++ [concentrated (position s2) (Fin m)]) = true).
  { apply forallb_finiteLoad_app; [exact Hf|]. now rewrite E2. }
  destruct (solveReactions_rational s1 s2 loads p1 p2 E1 E2 Hne Hf)
    as (a1 & a2 & -> & Ha2 & Ha1).
  destruct (solveReactions_rational s1 s2 _ p1 p2 E1 E2 Hne G1)
    as (b1 & b2 & -> & Hb2 & Hb1).
  destruct (solveReactions_rational s1 s2 _ p1 p2 E1 E2 Hne G2)
    as (c1 & c2 & -> & Hc2 & Hc1).
  cbn [fst snd add same].
  assert (D : ~ (p2 - p1 == 0)%Q) by (intros D; apply Hne; lra).
  rewrite moments_app in Hb2, Hc2. rewrite magnitudes_app in Hb1, Hc1.
  rewrite E1 in Hb2, Hb1. rewrite E2 in Hc2, Hc1.
  cbn [moments magnitudes rational] in Hb2, Hb1, Hc2, Hc1.
  assert (B2 : (b2 == a2)%Q) by (rewrite Hb2, Ha2; now field).
  assert (C2 : (c2 == a2 + m)%Q) by (rewrite Hc2, Ha2; now field).
  repeat split.
  - rewrite Hb1, Ha1, B2. ring.
  - exact B2.
  - rewrite Hc1, Ha1, C2. ring.
  - exact C2.
Qed.

Lemma load_on_a_support_is_carried_by_it_witness :
  (fst (solveReactions pinAt2 rollerAt8
          (scenarioLoads ++ [concentrated (position pinAt2) (Fin 12)]))
   ≈ fst (solveReactions pinAt2 rollerAt8 scenarioLoads) + Fin 12 /\
   snd (solveReactions pinAt2 rollerAt8
          (scenarioLoads ++ [concentrated (position pinAt2) (Fin 12)]))
   ≈ snd (solveReactions pinAt2 rollerAt8 scenarioLoads)) /\
  (fst (solveReactions pinAt2 rollerAt8
          (scenarioLoads ++ [concentrated (position rollerAt8) (Fin 12)]))
   ≈ fst (solveReactions pinAt2 rollerAt8 scenarioLoads) /\
   snd (solveReactions pinAt2 rollerAt8
          (scenarioLoads ++ [concentrated (position rollerAt8) (Fin 12)]))
   ≈ snd (solveReactions pinAt2 rollerAt8 scenarioLoads) + Fin 12).
Proof.
  apply (load_on_a_support_is_carried_by_it pinAt2 rollerAt8 scenarioLoads 12);
    reflexivity.
Defined.

Lemma sameb_refl (a : number) : sameb a a = true.
Proof. apply sameb_same, same_refl. Qed.

(** X24. Reading the published object back: the position of the second
    support always gives [R2]; the position of the first support gives [R1],
    unless the two supports stand at the same position, where [R2] has
    overwritten it; any other position gives nothing. *)
Theorem published_reactions_read_back (s1 s2 : Support) (R1 R2 : number) :
  obj_get (position s2) (reactionsObject s1 s2 R1 R2) = Some R2 /\
  obj_get (position s1) (reactionsObject s1 s2 R1 R2)
  = Some (if sameb (position s1) (position s2) then R2 else R1) /\
  (forall k : number,
     sameb k (position s1) || sameb k (position s2) = false ->
     obj_get k (reactionsObject s1 s2 R1 R2) = None).
Proof.
  unfold reactionsObject, obj_set, obj_get, obj_has.
  cbn [existsb app fst find]. rewrite (sameb_sym (position s2) (position s1)).
  destruct (sameb (position s1) (position s2)) eqn:H;
    cbn [orb map fst find option_map snd app].
  - rewrite (sameb_sym (position s2) (position s1)), H.
    cbn [fst snd find option_map]. rewrite (sameb_sym (position s2) (position s1)), H.
    rewrite sameb_refl. cbn [option_map snd]. repeat split.
    intros k Hk. apply orb_false_iff in Hk as [K1 _]. now rewrite K1.
  - rewrite (sameb_sym (position s2) (position s1)), H, !sameb_refl.
    cbn [option_map snd]. repeat split.
    intros k Hk. apply orb_false_iff in Hk as [K1 K2]. now rewrite K1, K2.
Qed.

Lemma ltb_not_geb (a b : number) : (a <? b) = true -> (a >=? b) = false.
Proof. unfold ltb, geb. now destruct (compare a b) as [[| |]|]. Qed.

Lemma fold_subtractLoad_none (x : number) (loads : list Load) (v : number) :
  forallb (standsAfter x) loads = true ->
  fold_left (subtractLoad x) loads v = v.
Proof.
  revert v. induction loads as [|l loads IH]; intros v H; [reflexivity|].
  cbn [forallb] in H. apply andb_prop in H as [Hl H].
  cbn [fold_left]. rewrite IH by exact H.
  destruct l as [p m|]; [|reflexivity].
  cbn [standsAfter subtractLoad] in *. now rewrite (ltb_not_geb x p Hl).
Qed.

(** X25. Left of both supports and of every concentrated load the shear of
    the sweep is exactly 0, whatever the reactions and the loads are. *)
Theorem shear_is_zero_left_of_everything (s1 s2 : Support) (R1 R2 : number)
    (loads : list Load) (x : number) :
  (x <? position s1) = true ->
  (x <? position s2) = true ->
  forallb (standsAfter x) loads = true ->
  sampleShear s1 s2 R1 R2 loads x = Fin 0.
Proof.
  intros H1 H2 Hl. unfold sampleShear.
  rewrite (ltb_not_geb _ _ H1), (ltb_not_geb _ _ H2).
  now apply fold_subtractLoad_none.
Qed.

Lemma shear_is_zero_left_of_everything_witness :
  sampleShear pinAt2 rollerAt8 PosInf NaN (uniformLoad :: scenarioLoads)
              (Fin (1 # 2))
  = Fin 0.
Proof.
  apply (shear_is_zero_left_of_everything pinAt2 rollerAt8 PosInf NaN
           (uniformLoad :: scenarioLoads) (Fin (1 # 2))); reflexivity.
Defined.

End StaticsFacts.
